(** * PomoPal: the background service worker's timer, alarms and statistics

  A shallow embedding of [src/service_worker.js]: the phase/timer state
  machine ([startNextPhase], [pauseTimer], [resumeTimer], [resetTimer], the
  alarm listener), the alarm registrations it keeps with [chrome.alarms],
  the continuations it leaves on the event loop, and the statistics it
  keeps in [chrome.storage.local] ([incrementStat], [computeStatsSummary],
  [clearStats]). *)

From Stdlib Require Import ZArith Lia Bool List String Ascii.
From stdpp Require Import gmap strings list fin_maps pretty.

Local Open Scope string_scope.
Local Open Scope Z_scope.

(* ===================================================================== *)
(** * JavaScript values                                                   *)
(* ===================================================================== *)

Module JS.

(** A field that holds a number or [null] is an [option Z]; in arithmetic
    [null] is coerced to [0] ([null - now] is [-now]). *)
Definition num (v : option Z) : Z :=
  match v with
  | Some n => n
  | None => 0
  end.

(** [a % b === 0].  The remainder takes the sign of the dividend
    ([Z.rem]); with [b = 0] it is [NaN], which is not [=== 0]. *)
Definition rem_is_zero (a b : Z) : bool :=
  if b =? 0 then false else Z.rem a b =? 0.

(** [Math.ceil(a / b)] for a positive divisor. *)
Definition ceil_div (a b : Z) : Z := - ((- a) / b).

(** [v || 0] for a stored number that may be absent. *)
Definition or_zero (v : option Z) : Z := default 0 v.

(** Truthiness of a string that may be absent: [undefined] and the empty
    string are falsy. *)
Definition truthy (v : option string) : bool :=
  match v with
  | Some s => negb (String.eqb s "")
  | None => false
  end.

End JS.

(* ===================================================================== *)
(** * Dates                                                               *)
(* ===================================================================== *)

(** A [Date] is its time value, milliseconds since the epoch, in [Z].  The
    worker uses [toISOString().split('T')[0]], the UTC date as [YYYY-MM-DD];
    [new Date(key)], UTC midnight of a date key; and
    [setDate(getDate() - i)], which is arithmetic on the local calendar day
    and so depends on the time zone of the host. *)
Module Calendar.

Definition msPerDay : Z := 86400000.

(** Day number of a time value ([Day(t) = floor(t / msPerDay)]). *)
Definition day_of (t : Z) : Z := t / msPerDay.

(** Year of the era, day of the year (counted from 1 March) and month
    index (0 = March) of a day of the 400-year era. *)
Definition yoe_of (doe : Z) : Z :=
  (doe - doe / 1460 + doe / 36524 - doe / 146096) / 365.
Definition doy_of (doe : Z) : Z :=
  let yoe := yoe_of doe in doe - (365 * yoe + yoe / 4 - yoe / 100).
Definition mp_of (doy : Z) : Z := (5 * doy + 2) / 153.

(** Proleptic Gregorian date (year, month 1..12, day 1..31) of a day
    number counted from 1970-01-01. *)
Definition civil_from_days (z : Z) : Z * Z * Z :=
  let z := z + 719468 in
  let era := z / 146097 in
  let doe := z mod 146097 in
  let yoe := yoe_of doe in
  let doy := doy_of doe in
  let mp := mp_of doy in
  let d := doy - (153 * mp + 2) / 5 + 1 in
  let m := if mp <? 10 then mp + 3 else mp - 9 in
  (yoe + era * 400 + (if m <=? 2 then 1 else 0), m, d).

(** Day number of a date. *)
Definition days_from_civil (y m d : Z) : Z :=
  let y := y - (if m <=? 2 then 1 else 0) in
  let era := y / 400 in
  let yoe := y mod 400 in
  let doy := (153 * (if 2 <? m then m - 3 else m + 9) + 2) / 5 + d - 1 in
  let doe := yoe * 365 + yoe / 4 - yoe / 100 + doy in
  era * 146097 + doe - 719468.

(** Decimal digits. *)
Definition digit (n : Z) : ascii := ascii_of_N (48 + Z.to_N (n mod 10)).

Definition digit_val (c : ascii) : option Z :=
  let v := N_of_ascii c in
  if ((48 <=? v) && (v <=? 57))%N then Some (Z.of_N v - 48) else None.

Definition pad2 (n : Z) : string :=
  String (digit (n / 10)) (String (digit n) EmptyString).

Definition pad4 (n : Z) : string :=
  String (digit (n / 1000)) (String (digit (n / 100)) (pad2 n)).

Definition pad6 (n : Z) : string :=
  String (digit (n / 100000)) (String (digit (n / 10000)) (pad4 n)).

(** The year of an ISO string: four digits from 0 to 9999, otherwise a
    sign and six digits. *)
Definition year_str (y : Z) : string :=
  if (0 <=? y) && (y <=? 9999) then pad4 y
  else (if y <? 0 then "-" else "+") ++ pad6 (Z.abs y).

(** The date key of a day number: [YYYY-MM-DD]. *)
Definition dayKey (day : Z) : string :=
  let '(y, m, d) := civil_from_days day in
  year_str y ++ "-" ++ pad2 m ++ "-" ++ pad2 d.

(** [date.toISOString().split('T')[0]]. *)
Definition isoDate (t : Z) : string := dayKey (day_of t).

(** Day numbers whose year has four digits: 0000-01-01 to 9999-12-31. *)
Definition minDay : Z := -719528.
Definition maxDay : Z := 2932896.

Definition two (a b : ascii) : option Z :=
  match digit_val a, digit_val b with
  | Some x, Some y => Some (10 * x + y)
  | _, _ => None
  end.

(** [new Date(s)] for a date-only string [YYYY-MM-DD]: the time value of
    UTC midnight of that day.  As in V8, the month must be 1 to 12 and the
    day 1 to 31, and a day past the end of the month runs into the next
    month ([2023-02-29] is 1 March 2023).  Strings of any other shape are
    not given a value: [None] stands for an Invalid Date. *)
Definition parseDate (s : string) : option Z :=
  match s with
  | String y1 (String y2 (String y3 (String y4 (String s1
      (String m1 (String m2 (String s2
        (String d1 (String d2 EmptyString))))))))) =>
      match two y1 y2, two y3 y4, two m1 m2, two d1 d2 with
      | Some yh, Some yl, Some m, Some d =>
          let y := 100 * yh + yl in
          if Ascii.eqb s1 "-" && Ascii.eqb s2 "-"
             && (1 <=? m) && (m <=? 12) && (1 <=? d) && (d <=? 31)
          then Some (days_from_civil y m d * msPerDay) else None
      | _, _, _, _ => None
      end
  | _ => None
  end.

(** ** The time zone of the host

    [utcOffset t] is the offset of local time at the instant [t]
    (LocalTZA(t, true)); [localOffset tl] is the offset by which the local
    time value [tl] is read back as an instant (LocalTZA(tl, false)), which
    for a local time that occurs twice is the offset before the clock was
    turned back.  Reading an instant as local time and back can so move it
    by the size of a clock change; a zone is taken not to turn its clock back
    across midnight UTC, so that this stays on the same UTC day. *)
Class TimeZone := mkZone {
  utcOffset : Z -> Z;
  localOffset : Z -> Z;
  zone_same_day :
    forall t, day_of (t + utcOffset t - localOffset (t + utcOffset t)) = day_of t
}.

(** [date.getDate()]: the day of the month in local time. *)
Definition getDate {tz : TimeZone} (t : Z) : Z :=
  let '(_, _, d) := civil_from_days (day_of (t + utcOffset t)) in d.

(** [date.setDate(dt)]: the local time with the day of the month replaced
    (a day below 1 or past the end of the month runs into the neighbouring
    month) and the local time of day kept, read back as an instant. *)
Definition setDate {tz : TimeZone} (t dt : Z) : Z :=
  let tl := t + utcOffset t in
  let '(y, m, _) := civil_from_days (day_of tl) in
  let newLocal := days_from_civil y m dt * msPerDay + tl mod msPerDay in
  newLocal - localOffset newLocal.

(** A zone whose clock is never changed: [c] milliseconds ahead of UTC. *)
Definition fixedZone (c : Z) : TimeZone.
Proof.
  refine (mkZone (fun _ => c) (fun _ => c) _).
  intros t. f_equal. lia.
Defined.

Definition utc : TimeZone := fixedZone 0.

(** New York in 2024: five hours behind UTC, and four hours behind from
    10 March 07:00 UTC (02:00 local becomes 03:00) to 3 November 06:00 UTC
    (02:00 local becomes 01:00). *)
Definition newYork2024 : TimeZone.
Proof.
  refine (mkZone
    (fun t => if (1710054000000 <=? t) && (t <? 1730613600000)
              then -14400000 else -18000000)
    (fun tl => if (1710039600000 <=? tl) && (tl <? 1730599200000)
               then -14400000 else -18000000) _).
  intros t. unfold day_of, msPerDay.
  destruct (Z.leb_spec 1710054000000 t); destruct (Z.ltb_spec t 1730613600000);
    cbn [andb];
    match goal with
    | |- context [?a <=? ?b] => destruct (Z.leb_spec a b)
    end;
    match goal with
    | |- context [?a <? ?b] => destruct (Z.ltb_spec a b)
    end; cbn [andb]; try lia; try (f_equal; lia);
    Z.div_mod_to_equations; lia.
Defined.

End Calendar.

(* ===================================================================== *)
(** * The service worker                                                  *)
(* ===================================================================== *)

Module Worker.

Import Calendar.

(** ** Settings *)

Record Settings := mkSettings {
  workDuration : Z;
  shortBreakDuration : Z;
  longBreakDuration : Z;
  longBreakInterval : Z;
  theme : string
}.

Definition DEFAULT_SETTINGS : Settings := mkSettings 25 5 15 4 "light".

(** The settings object kept in storage: any of its keys may be missing. *)
Record StoredSettings := mkStored {
  stored_workDuration : option Z;
  stored_shortBreakDuration : option Z;
  stored_longBreakDuration : option Z;
  stored_longBreakInterval : option Z;
  stored_theme : option string
}.

Definition no_settings : StoredSettings := mkStored None None None None None.

(** [Object.assign({}, base, over)] onto a full settings object. *)
Definition assign (base : Settings) (over : StoredSettings) : Settings :=
  {| workDuration := default (workDuration base) (stored_workDuration over);
     shortBreakDuration :=
       default (shortBreakDuration base) (stored_shortBreakDuration over);
     longBreakDuration :=
       default (longBreakDuration base) (stored_longBreakDuration over);
     longBreakInterval :=
       default (longBreakInterval base) (stored_longBreakInterval over);
     theme := default (theme base) (stored_theme over) |}.

(** [Object.assign({}, base, over)] of two stored objects: the keys of
    [over] win. *)
Definition assign_stored (base over : StoredSettings) : StoredSettings :=
  let pick {A} (o b : option A) := match o with Some x => Some x | None => b end in
  {| stored_workDuration :=
       pick (stored_workDuration over) (stored_workDuration base);
     stored_shortBreakDuration :=
       pick (stored_shortBreakDuration over) (stored_shortBreakDuration base);
     stored_longBreakDuration :=
       pick (stored_longBreakDuration over) (stored_longBreakDuration base);
     stored_longBreakInterval :=
       pick (stored_longBreakInterval over) (stored_longBreakInterval base);
     stored_theme := pick (stored_theme over) (stored_theme base) |}.

(** ** [chrome.storage.local] *)

Record Storage := mkStorage {
  settings : option StoredSettings;
  stats : option (gmap string Z);
  streak : option Z;
  lastStreakDate : option string
}.

Definition empty_storage : Storage := mkStorage None None None None.

Definition getSettings (store : Storage) : Settings :=
  assign DEFAULT_SETTINGS (default no_settings (settings store)).

Definition saveSettings (newSettings : StoredSettings) (store : Storage)
  : Storage :=
  {| settings :=
       Some (assign_stored (default no_settings (settings store)) newSettings);
     stats := stats store;
     streak := streak store;
     lastStreakDate := lastStreakDate store |}.

(** [result.stats || {}]. *)
Definition getStats (store : Storage) : gmap string Z :=
  default ∅ (stats store).

(** How an [async] function ends: it returns, or it throws and leaves the
    storage as it was at that point. *)
Inductive Outcome :=
| Returned (store : Storage)
| Threw (store : Storage).

Definition storage_of (o : Outcome) : Storage :=
  match o with
  | Returned s => s
  | Threw s => s
  end.

Definition same_key (a : option string) (b : string) : bool :=
  match a with
  | Some x => String.eqb x b
  | None => false
  end.

(** One call of [incrementStat] that no other storage access comes between:
    its two reads and two writes are taken together. *)
Definition incrementStat {tz : TimeZone} (dateKey : string) (store : Storage)
  : Outcome :=
  let stats0 := getStats store in
  let stats1 := <[dateKey := JS.or_zero (stats0 !! dateKey) + 1]> stats0 in
  let lastDate := lastStreakDate store in
  let streak0 := JS.or_zero (streak store) in
  if JS.truthy lastDate then
    match parseDate dateKey with
    | None =>
        (* toISOString of an Invalid Date throws a RangeError *)
        Threw (mkStorage (settings store) (Some stats1)
                         (streak store) (lastStreakDate store))
    | Some yesterday =>
        let yesterday := setDate yesterday (getDate yesterday - 1) in
        let yKey := isoDate yesterday in
        let streak1 :=
          if same_key lastDate yKey then streak0 + 1
          else if negb (same_key lastDate dateKey) then 1
          else streak0 in
        Returned (mkStorage (settings store) (Some stats1)
                            (Some streak1) (Some dateKey))
    end
  else
    Returned (mkStorage (settings store) (Some stats1) (Some 1) (Some dateKey)).

(** One call of [clearStats] that no other storage access comes between:
    its three removes are taken together. *)
Definition clearStats (store : Storage) : Storage :=
  mkStorage (settings store) None None None.

Record Summary := mkSummary { today : Z; week : Z; summary_streak : Z }.

(** [now] is the time value of [new Date()]; the dates made inside the loop
    are taken at the same instant. *)
Definition computeStatsSummary {tz : TimeZone} (now : Z) (store : Storage)
  : Summary :=
  let stats := getStats store in
  let isoToday := isoDate now in
  let todayCount := JS.or_zero (stats !! isoToday) in
  let weekCount :=
    fold_left
      (fun weekCount i =>
         let d := setDate now (getDate now - i) in
         let key := isoDate d in
         weekCount + JS.or_zero (stats !! key))
      (seqZ 0 7) 0 in
  mkSummary todayCount weekCount (JS.or_zero (streak store)).

(** ** The timer state *)

Record TimerState := mkState {
  phase : string;
  running : bool;
  startTime : option Z;
  endTime : option Z;
  remainingTime : option Z;
  cycleCount : Z
}.

Definition idle_state : TimerState :=
  mkState "idle" false None None None 0.

(** ** Alarms and the event loop *)

Record Alarm := mkAlarm { when : Z; periodInMinutes : option Z }.

(** Continuations waiting on the event loop. *)
Inductive Task :=
| ArmAlarms                    (* the callback given to alarms.clearAll *)
| AwaitSettings                (* startNextPhase, at await getSettings() *)
| AwaitStat (dateKey : string) (* the alarm listener, at await incrementStat *)
| AutoStart (due : Z).         (* setTimeout(() => startNextPhase(), 500) *)

#[export] Instance Task_eq_dec : EqDecision Task.
Proof. solve_decision. Defined.

Record World := mkWorld {
  state : TimerState;
  alarms : gmap string Alarm;
  pending : list Task;
  store : Storage
}.

Definition initial_world : World := mkWorld idle_state ∅ [] empty_storage.

Definition with_state (s : TimerState) (w : World) : World :=
  mkWorld s (alarms w) (pending w) (store w).

(** Remove the first occurrence of a task; [None] when it is not waiting. *)
Fixpoint take (t : Task) (l : list Task) : option (list Task) :=
  match l with
  | [] => None
  | x :: l' =>
      if decide (x = t) then Some l'
      else match take t l' with
           | Some r => Some (x :: r)
           | None => None
           end
  end.

(** ** The badge *)

Inductive Badge :=
| BadgeEmpty
| BadgeCheck
| BadgeMinutes (minutes : Z) (color : string).

(** [msLeft] of [updateBadge]: the time left on a state that is running or
    paused. *)
Definition msLeft (now : Z) (s : TimerState) : Z :=
  if running s then Z.max (JS.num (endTime s) - now) 0
  else JS.num (remainingTime s).

Definition updateBadge (now : Z) (s : TimerState) : Badge :=
  if String.eqb (phase s) "idle" then BadgeEmpty
  else if negb (running s) && negb (bool_decide (is_Some (remainingTime s)))
  then BadgeCheck
  else BadgeMinutes (JS.ceil_div (msLeft now s) 60000)
         (if String.eqb (phase s) "work" then "#E53935" else "#43A047").

(** ** The timer operations

    The badge and the status broadcast are outputs computed from the state;
    they change neither the state nor the alarms and are left out of the
    operations. *)

(** [chrome.alarms.clearAll(callback)]: the alarms are gone and the
    callback waits on the event loop. *)
Definition scheduleAlarms (w : World) : World :=
  mkWorld (state w) ∅ (pending w ++ [ArmAlarms]) (store w).

(** The callback of [scheduleAlarms].  [endTime] is a number whenever
    [running] is set; with [when: null] no [timerEnd] alarm is made. *)
Definition armAlarms (now : Z) (w : World) : World :=
  if running (state w) then
    let a1 :=
      match endTime (state w) with
      | Some e => <["timerEnd" := mkAlarm e None]> (alarms w)
      | None => alarms w
      end in
    let a2 := <["updateBadge" := mkAlarm (now + 1000) (Some 1)]> a1 in
    mkWorld (state w) a2 (pending w) (store w)
  else w.

Definition resetTimer (w : World) : World :=
  mkWorld idle_state ∅ (pending w) (store w).

(** Setting the countdown going at the end of [startNextPhase]. *)
Definition startTimer (ph : string) (cycles durationMinutes now : Z)
    (w : World) : World :=
  scheduleAlarms
    (with_state
       (mkState ph true (Some now) (Some (now + durationMinutes * 60 * 1000))
                None cycles) w).

(** [startNextPhase] from the point where the settings have been read. *)
Definition startNextPhase (settings : Settings) (now : Z) (w : World)
  : World :=
  let s := state w in
  if String.eqb (phase s) "idle" || String.eqb (phase s) "short_break"
     || String.eqb (phase s) "long_break"
  then startTimer "work" (cycleCount s) (workDuration settings) now w
  else if String.eqb (phase s) "work" then
    let cycles := cycleCount s + 1 in
    if JS.rem_is_zero cycles (longBreakInterval settings)
    then startTimer "long_break" cycles (longBreakDuration settings) now w
    else startTimer "short_break" cycles (shortBreakDuration settings) now w
  else resetTimer w.

Definition pauseTimer (now : Z) (w : World) : World :=
  let s := state w in
  if negb (running s) then w
  else
    mkWorld
      (mkState (phase s) false (startTime s) (endTime s)
               (Some (Z.max (JS.num (endTime s) - now) 0)) (cycleCount s))
      ∅ (pending w) (store w).

Definition resumeTimer (now : Z) (w : World) : World :=
  let s := state w in
  if running s then w
  else
    match remainingTime s with
    | None => w
    | Some remaining =>
        scheduleAlarms
          (with_state
             (mkState (phase s) true (Some now) (Some (now + remaining))
                      None (cycleCount s)) w)
    end.

(** The end of the [timerEnd] branch of the alarm listener, after the
    statistics: the phase is marked complete and the next one is started
    half a second later. *)
Definition completePhase (now : Z) (w : World) : World :=
  let s := state w in
  mkWorld
    (mkState (phase s) false (startTime s) (endTime s) None (cycleCount s))
    (alarms w) (pending w ++ [AutoStart (now + 500)]) (store w).

(** The alarm listener. *)
Definition onAlarm (name : string) (now : Z) (w : World) : World :=
  if String.eqb name "timerEnd" then
    if String.eqb (phase (state w)) "work"
    then mkWorld (state w) (alarms w)
                 (pending w ++ [AwaitStat (isoDate now)]) (store w)
    else completePhase now w
  else w.

(** ** Events

    Everything that makes the worker run: a message from a page, an alarm
    that goes off, or a continuation that is taken up again. *)
Inductive Event :=
| MsgStart
| MsgPause (now : Z)
| MsgResume (now : Z)
| MsgReset
| MsgSaveSettings (newSettings : StoredSettings)
| MsgClearStats
| AlarmFires (name : string) (now : Z)
| Run (t : Task) (now : Z).

(** An alarm that goes off: a one-shot alarm is removed, a periodic one is
    set again one period later. *)
Definition fire (name : string) (a : Alarm) (m : gmap string Alarm)
  : gmap string Alarm :=
  match periodInMinutes a with
  | Some p => <[name := mkAlarm (when a + p * 60000) (Some p)]> m
  | None => delete name m
  end.

Definition runTask {tz : TimeZone} (t : Task) (now : Z) (w : World)
  : option World :=
  match t with
  | ArmAlarms => Some (armAlarms now w)
  | AwaitSettings => Some (startNextPhase (getSettings (store w)) now w)
  | AwaitStat dateKey =>
      match incrementStat dateKey (store w) with
      | Returned st' =>
          Some (completePhase now
                  (mkWorld (state w) (alarms w) (pending w) st'))
      | Threw st' => Some (mkWorld (state w) (alarms w) (pending w) st')
      end
  | AutoStart due =>
      if due <=? now
      then Some (mkWorld (state w) (alarms w)
                         (pending w ++ [AwaitSettings]) (store w))
      else None
  end.

(** One event; [None] when the event cannot happen in this world. *)
Definition handle {tz : TimeZone} (e : Event) (w : World) : option World :=
  match e with
  | MsgStart =>
      Some (mkWorld (state w) (alarms w)
                    (pending w ++ [AwaitSettings]) (store w))
  | MsgPause now => Some (pauseTimer now w)
  | MsgResume now => Some (resumeTimer now w)
  | MsgReset => Some (resetTimer w)
  | MsgSaveSettings newSettings =>
      Some (mkWorld (state w) (alarms w) (pending w)
                    (saveSettings newSettings (store w)))
  | MsgClearStats =>
      Some (mkWorld (state w) (alarms w) (pending w) (clearStats (store w)))
  | AlarmFires name now =>
      match alarms w !! name with
      | Some a =>
          if when a <=? now
          then Some (onAlarm name now
                       (mkWorld (state w) (fire name a (alarms w))
                                (pending w) (store w)))
          else None
      | None => None
      end
  | Run t now =>
      match take t (pending w) with
      | Some rest =>
          runTask t now (mkWorld (state w) (alarms w) rest (store w))
      | None => None
      end
  end.

Fixpoint run {tz : TimeZone} (es : list Event) (w : World) : option World :=
  match es with
  | [] => Some w
  | e :: es' =>
      match handle e w with
      | Some w' => run es' w'
      | None => None
      end
  end.

(** ** Calls of start, pause and resume

    A call of [start()] with the settings it reads and the time at which
    its body runs; calls of [pause()] and [resume()] with their time. *)
Inductive Call :=
| Start (settings : Settings) (now : Z)
| Pause (now : Z)
| Resume (now : Z).

Definition call (c : Call) (w : World) : World :=
  match c with
  | Start settings now => startNextPhase settings now w
  | Pause now => pauseTimer now w
  | Resume now => resumeTimer now w
  end.

(** The worlds after each call of a sequence. *)
Fixpoint trace (cs : list Call) (w : World) : list World :=
  match cs with
  | [] => []
  | c :: cs' => call c w :: trace cs' (call c w)
  end.

(** ** The three descriptions of a timer state *)

Definition is_idle (s : TimerState) : bool := String.eqb (phase s) "idle".

Definition running_with_endTime (s : TimerState) : bool :=
  running s && bool_decide (is_Some (endTime s)).

Definition paused_with_remainingTime (s : TimerState) : bool :=
  negb (running s) && bool_decide (is_Some (remainingTime s)).

Definition exactly_one (a b c : bool) : bool :=
  (a && negb b && negb c) || (negb a && b && negb c)
  || (negb a && negb b && c).

Definition describes_one (s : TimerState) : bool :=
  exactly_one (is_idle s) (running_with_endTime s)
              (paused_with_remainingTime s).

(** ** The shapes a timer state takes under start, pause, resume and reset *)

Definition active (ph : string) : Prop :=
  ph = "work" \/ ph = "short_break" \/ ph = "long_break".

Inductive WellFormed : TimerState -> Prop :=
| wf_idle : WellFormed idle_state
| wf_running ph t0 e c :
    active ph -> WellFormed (mkState ph true (Some t0) (Some e) None c)
| wf_paused ph t0 e r c :
    active ph -> WellFormed (mkState ph false t0 e (Some r) c).

(** A state that is running has an end time. *)
Definition Armed (s : TimerState) : Prop :=
  running s = true -> is_Some (endTime s).

End Worker.

(* ===================================================================== *)
(** * The popup                                                           *)
(* ===================================================================== *)

(** The part of the popup script that is computed from a state snapshot: the
    time text, and which buttons are shown.  The progress bar is a
    floating-point ratio and is left out. *)
Module Popup.

Import Worker.

Fixpoint fill (n : nat) (c : ascii) (s : string) : string :=
  match n with
  | O => s
  | S n' => String c (fill n' c s)
  end.

(** [s.padStart(target, c)]. *)
Definition padStart (target : nat) (c : ascii) (s : string) : string :=
  fill (target - String.length s) c s.

(** [formatTime(ms)]; [String(n)] of an integer is its decimal notation. *)
Definition formatTime (ms : Z) : string :=
  let totalSeconds := Z.max (JS.ceil_div ms 1000) 0 in
  let minutes := totalSeconds / 60 in
  let seconds := Z.rem totalSeconds 60 in
  let m := padStart 2 "0" (pretty minutes) in
  let s := padStart 2 "0" (pretty seconds) in
  m ++ ":" ++ s.

(** [msLeft] in [updateUI] and in the interval callback, for a state that is
    not idle. *)
Definition msLeft (now : Z) (s : TimerState) : Z :=
  if running s then JS.num (endTime s) - now
  else match remainingTime s with
       | Some remaining => remaining
       | None => 0
       end.

(** The text of the timer display. *)
Definition timerText (now : Z) (s : TimerState) : string :=
  if String.eqb (phase s) "idle" then "--:--" else formatTime (msLeft now s).

(** Which buttons carry the class [hidden] after [updateUI]. *)
Record Buttons := mkButtons {
  startHidden : bool;
  pauseHidden : bool;
  resumeHidden : bool;
  resetHidden : bool
}.

Definition buttons (s : TimerState) : Buttons :=
  if String.eqb (phase s) "idle" then mkButtons false true true true
  else if running s then mkButtons true false true false
  else mkButtons true true false false.

End Popup.

(* ===================================================================== *)
(** * Invariants of the worker                                            *)
(* ===================================================================== *)

Module Invariants.

Import Worker.

(** What holds of the timer state whatever events the worker has seen. *)
Record Sound (s : TimerState) : Prop := mkSound {
  sound_phase : phase s = "idle" \/ active (phase s);
  sound_running :
    running s = true ->
    active (phase s) /\ is_Some (endTime s) /\ remainingTime s = None;
  sound_remaining :
    forall r, remainingTime s = Some r -> 0 <= r /\ active (phase s);
  sound_cycles : 0 <= cycleCount s
}.


(** The world after a sequence of calls. *)
Definition after (cs : list Call) (w : World) : World :=
  fold_left (fun w c => call c w) cs w.

(** A call of start() that reads the long-break interval [n]. *)
Definition start_with (n : Z) (c : Call) : Prop :=
  match c with
  | Start settings _ => longBreakInterval settings = n
  | _ => False
  end.

End Invariants.

(* ===================================================================== *)
(** * Facts about dates                                                   *)
(* ===================================================================== *)

Module CalendarFacts.

Import Calendar.

Example isoDate_epoch : isoDate 0 = "1970-01-01".
Proof. reflexivity. Qed.

Example isoDate_before_epoch : isoDate (-1) = "1969-12-31".
Proof. reflexivity. Qed.

Example isoDate_leap_day : isoDate 1709251199999 = "2024-02-29".
Proof. reflexivity. Qed.

Example isoDate_after_leap_day :
  isoDate 1709251200000 = "2024-03-01"
  /\ getDate (tz := utc) 1709251200000 = 1
  /\ isoDate (setDate (tz := utc) 1709251200000 0) = "2024-02-29".
Proof. repeat split; reflexivity. Qed.

Example isoDate_century :
  isoDate 951868800000 = "2000-03-01"
  /\ isoDate (setDate (tz := utc) 951868800000 0) = "2000-02-29"
  /\ isoDate 4107542400000 = "2100-03-01"
  /\ isoDate (setDate (tz := utc) 4107542400000 0) = "2100-02-28".
Proof. repeat split; reflexivity. Qed.

(** In New York, 2024-11-04T00:00Z is 3 November, 19:00 local time; the
    day before at the same local time is 2 November 19:00, still on summer
    time, which is 23:00 UTC of 2 November. *)
Example setDate_newYork_november :
  getDate (tz := newYork2024) 1730678400000 = 3
  /\ setDate (tz := newYork2024) 1730678400000 2 = 1730588400000
  /\ isoDate 1730588400000 = "2024-11-02".
Proof. repeat split; reflexivity. Qed.

(** In New York, 2024-03-10T23:30Z is 10 March, 19:30 local summer time;
    the day before at the same local time is on winter time, which is 00:30
    UTC of 10 March. *)
Example setDate_newYork_march :
  getDate (tz := newYork2024) 1710113400000 = 10
  /\ isoDate (setDate (tz := newYork2024) 1710113400000 9) = "2024-03-10"
  /\ isoDate (setDate (tz := newYork2024) 1710113400000 4) = "2024-03-05".
Proof. repeat split; reflexivity. Qed.

Example parseDate_examples :
  parseDate "2024-02-29" = Some 1709164800000
  /\ parseDate "2023-02-29" = Some 1677628800000
  /\ isoDate 1677628800000 = "2023-03-01"
  /\ parseDate "2023-02-32" = None
  /\ parseDate "2023-13-01" = None
  /\ parseDate "yesterday" = None.
Proof. repeat split; reflexivity. Qed.

Lemma day_of_minus t i : day_of (t - i * msPerDay) = day_of t - i.
Proof.
  unfold day_of, msPerDay.
  replace (t - i * 86400000) with (t + (- i) * 86400000) by lia.
  rewrite Z.div_add by lia. lia.
Qed.

Lemma day_of_midnight d : day_of (d * msPerDay) = d.
Proof. unfold day_of, msPerDay. apply Z.div_mul. lia. Qed.

(** Within an era the year and the day of the year stay in range. *)
Lemma yoe_bounds doe : 0 <= doe < 146097 -> 0 <= yoe_of doe <= 399.
Proof. intros H. unfold yoe_of. Z.div_mod_to_equations; lia. Qed.

Lemma doy_bounds doe : 0 <= doe < 146097 -> 0 <= doy_of doe <= 365.
Proof. intros H. unfold doy_of, yoe_of. Z.div_mod_to_equations; lia. Qed.

(** Month and day determine the day of the year. *)
Lemma month_day_of_doy doy :
  0 <= doy <= 365 ->
  let mp := mp_of doy in
  let d := doy - (153 * mp + 2) / 5 + 1 in
  let m := if mp <? 10 then mp + 3 else mp - 9 in
  1 <= m <= 12 /\ 1 <= d <= 31 /\
  (153 * (if 2 <? m then m - 3 else m + 9) + 2) / 5 + d - 1 = doy.
Proof.
  intros H. unfold mp_of. cbv zeta.
  destruct (Z.ltb_spec ((5 * doy + 2) / 153) 10);
    match goal with
    | |- context [2 <? ?m] => destruct (Z.ltb_spec 2 m)
    end; Z.div_mod_to_equations; lia.
Qed.

Lemma year_before_march doe :
  0 <= doe <= 146036 ->
  yoe_of doe + (if mp_of (doy_of doe) <? 10 then 0 else 1) <= 399.
Proof.
  intros H. unfold mp_of, doy_of, yoe_of.
  match goal with
  | |- context [?a <? 10] => destruct (Z.ltb_spec a 10)
  end; Z.div_mod_to_equations; lia.
Qed.

Lemma year_end_of_era doe :
  146037 <= doe < 146097 -> yoe_of doe = 399 /\ 10 <= mp_of (doy_of doe).
Proof.
  intros H. unfold mp_of, doy_of, yoe_of. Z.div_mod_to_equations; lia.
Qed.

(** The date of a day number gives the day number back. *)
Lemma days_from_civil_from_days z :
  let '(y, m, d) := civil_from_days z in
  days_from_civil y m d = z /\ 1 <= m <= 12 /\ 1 <= d <= 31.
Proof.
  unfold civil_from_days.
  set (z' := z + 719468).
  assert (Hdoe : 0 <= z' mod 146097 < 146097) by (apply Z.mod_pos_bound; lia).
  set (doe := z' mod 146097) in *.
  set (era := z' / 146097).
  assert (Hz : z' = 146097 * era + doe) by (apply Z.div_mod; lia).
  pose proof (yoe_bounds doe Hdoe) as Hy.
  pose proof (doy_bounds doe Hdoe) as Hd.
  pose proof (month_day_of_doy (doy_of doe) Hd) as Hm. cbv zeta in Hm.
  set (mp := mp_of (doy_of doe)) in *.
  set (m := if mp <? 10 then mp + 3 else mp - 9) in *.
  set (d := doy_of doe - (153 * mp + 2) / 5 + 1) in *.
  destruct Hm as (Hm1 & Hd1 & Hr).
  split; [| split; assumption].
  unfold days_from_civil.
  replace (yoe_of doe + era * 400 + (if m <=? 2 then 1 else 0)
           - (if m <=? 2 then 1 else 0)) with (yoe_of doe + era * 400) by lia.
  rewrite Z.div_add by lia. rewrite Z.mod_add by lia.
  rewrite Z.div_small by lia. rewrite Z.mod_small by lia.
  rewrite Hr. unfold doy_of. cbv zeta. lia.
Qed.

(** Day numbers from [minDay] to [maxDay] have a four-digit year. *)
Lemma civil_year_range z :
  minDay <= z <= maxDay -> 0 <= fst (fst (civil_from_days z)) <= 9999.
Proof.
  unfold minDay, maxDay, civil_from_days. intros Hz. cbn [fst].
  set (z' := z + 719468).
  assert (Hdoe : 0 <= z' mod 146097 < 146097) by (apply Z.mod_pos_bound; lia).
  set (doe := z' mod 146097) in *.
  set (era := z' / 146097).
  assert (Hz' : z' = 146097 * era + doe) by (apply Z.div_mod; lia).
  pose proof (yoe_bounds doe Hdoe) as Hy.
  set (mp := mp_of (doy_of doe)).
  assert (Hjf : (if (if mp <? 10 then mp + 3 else mp - 9) <=? 2 then 1 else 0)
                = (if mp <? 10 then 0 else 1)).
  { pose proof (doy_bounds doe Hdoe) as Hd.
    assert (Hmp : 0 <= mp <= 11)
      by (unfold mp, mp_of; Z.div_mod_to_equations; lia).
    destruct (Z.ltb_spec mp 10);
      match goal with
      | |- context [?a <=? 2] => destruct (Z.leb_spec a 2)
      end; lia. }
  rewrite Hjf.
  assert (Hera : -1 <= era <= 24) by lia.
  destruct (Z_le_gt_dec doe 146036) as [Hlo | Hhi].
  - pose proof (year_before_march doe (conj (proj1 Hdoe) Hlo)) as Hb.
    fold mp in Hb.
    assert (era <> -1) by lia.
    destruct (Z.ltb_spec mp 10); lia.
  - assert (Hrange : 146037 <= doe < 146097) by lia.
    pose proof (year_end_of_era doe Hrange) as [Hb1 Hb2]. fold mp in Hb2.
    assert (era <> 24) by lia.
    destruct (Z.ltb_spec mp 10); lia.
Qed.

(** Digits are read back. *)
Lemma digit_val_digit n : digit_val (digit n) = Some (n mod 10).
Proof.
  unfold digit_val, digit.
  assert (H : 0 <= n mod 10 < 10) by (apply Z.mod_pos_bound; lia).
  rewrite N_ascii_embedding by lia.
  replace ((48 <=? 48 + Z.to_N (n mod 10))%N) with true
    by (symmetry; apply N.leb_le; lia).
  replace ((48 + Z.to_N (n mod 10) <=? 57)%N) with true
    by (symmetry; apply N.leb_le; lia).
  cbn [andb]. f_equal. lia.
Qed.

Lemma two_digits n : 0 <= n <= 99 -> two (digit (n / 10)) (digit n) = Some n.
Proof.
  intros H. unfold two. rewrite !digit_val_digit. f_equal.
  Z.div_mod_to_equations; lia.
Qed.

Lemma digit_ext a b : a mod 10 = b mod 10 -> digit a = digit b.
Proof. intros H. unfold digit. now rewrite H. Qed.

Lemma pad4_split y :
  0 <= y <= 9999 ->
  pad4 y = pad2 (y / 100) ++ pad2 (y mod 100).
Proof.
  intros H. unfold pad4, pad2. cbv [String.append].
  assert (H1 : digit (y / 1000) = digit (y / 100 / 10))
    by (apply digit_ext; Z.div_mod_to_equations; lia).
  assert (H2 : digit (y / 10) = digit (y mod 100 / 10))
    by (apply digit_ext; Z.div_mod_to_equations; lia).
  assert (H3 : digit y = digit (y mod 100))
    by (apply digit_ext; Z.div_mod_to_equations; lia).
  now rewrite H1, H2, H3.
Qed.

Lemma year_str_four y : 0 <= y <= 9999 -> year_str y = pad4 y.
Proof.
  intros H. unfold year_str.
  replace (0 <=? y) with true by (symmetry; apply Z.leb_le; lia).
  replace (y <=? 9999) with true by (symmetry; apply Z.leb_le; lia).
  reflexivity.
Qed.

(** A date key of a four-digit year is read back as the midnight of its
    day. *)
Lemma parseDate_dayKey d :
  minDay <= d <= maxDay -> parseDate (dayKey d) = Some (d * msPerDay).
Proof.
  intros Hd.
  pose proof (days_from_civil_from_days d) as Hr.
  pose proof (civil_year_range d Hd) as Hy.
  assert (Hk : dayKey d =
               let '(y, m, dd) := civil_from_days d in
               pad2 (y / 100) ++ pad2 (y mod 100) ++ "-" ++ pad2 m
                 ++ "-" ++ pad2 dd).
  { unfold dayKey. destruct (civil_from_days d) as [[y m] dd].
    cbn [fst] in Hy. rewrite year_str_four, pad4_split by assumption.
    unfold pad2. reflexivity. }
  destruct (civil_from_days d) as [[y m] dd]. cbn [fst] in Hy.
  destruct Hr as (Hr & Hm & Hdd).
  assert (Hday : days_from_civil (100 * (y / 100) + y mod 100) m dd = d).
  { rewrite <- Z.div_mod by lia. exact Hr. }
  rewrite Hk. unfold pad2 at 1 2 3 4. cbv [String.append].
  unfold parseDate. cbv beta iota.
  rewrite (two_digits (y / 100)) by (Z.div_mod_to_equations; lia).
  rewrite (two_digits (y mod 100)) by (Z.div_mod_to_equations; lia).
  rewrite (two_digits m), (two_digits dd) by lia.
  cbv zeta. rewrite Hday.
  replace (1 <=? m) with true by (symmetry; apply Z.leb_le; lia).
  replace (m <=? 12) with true by (symmetry; apply Z.leb_le; lia).
  replace (1 <=? dd) with true by (symmetry; apply Z.leb_le; lia).
  replace (dd <=? 31) with true by (symmetry; apply Z.leb_le; lia).
  reflexivity.
Qed.

Lemma dayKey_inj d1 d2 :
  minDay <= d1 <= maxDay -> minDay <= d2 <= maxDay ->
  dayKey d1 = dayKey d2 -> d1 = d2.
Proof.
  intros H1 H2 E.
  pose proof (parseDate_dayKey d1 H1) as P1.
  pose proof (parseDate_dayKey d2 H2) as P2.
  rewrite E, P2 in P1. injection P1. unfold msPerDay. lia.
Qed.

(** A day of the month past either end of the month runs over by whole
    days. *)
Lemma days_from_civil_shift y m d k :
  days_from_civil y m (d + k) = days_from_civil y m d + k.
Proof. unfold days_from_civil. lia. Qed.

(** [setDate(getDate() - i)] moves the local time back by [i] days and reads
    it back as an instant. *)
Lemma setDate_getDate {tz : TimeZone} t i :
  setDate t (getDate t - i)
  = t + utcOffset t - i * msPerDay
    - localOffset (t + utcOffset t - i * msPerDay).
Proof.
  unfold setDate, getDate.
  pose proof (days_from_civil_from_days (day_of (t + utcOffset t))) as Hr.
  destruct (civil_from_days (day_of (t + utcOffset t))) as [[y m] d].
  destruct Hr as [Hr _].
  replace (d - i) with (d + - i) by lia.
  rewrite days_from_civil_shift, Hr.
  assert (E : (day_of (t + utcOffset t) + - i) * msPerDay
              + (t + utcOffset t) mod msPerDay
              = t + utcOffset t - i * msPerDay).
  { unfold day_of, msPerDay. Z.div_mod_to_equations; lia. }
  now rewrite E.
Qed.

(** Where the clock is never changed that is [i] times 24 hours back. *)
Lemma setDate_getDate_fixed c t i :
  setDate (tz := fixedZone c) t (getDate (tz := fixedZone c) t - i)
  = t - i * msPerDay.
Proof. rewrite setDate_getDate. cbn [utcOffset localOffset fixedZone]. lia. Qed.

Lemma isoDate_setDate_fixed c t i :
  isoDate (setDate (tz := fixedZone c) t (getDate (tz := fixedZone c) t - i))
  = dayKey (day_of t - i).
Proof. unfold isoDate. now rewrite setDate_getDate_fixed, day_of_minus. Qed.


End CalendarFacts.

(* ===================================================================== *)
(** * The phase state machine                                             *)
(* ===================================================================== *)

Module TimerFacts.

Import Worker.

Ltac phases H := destruct H as [-> | [-> | ->]].

Lemma well_formed_describes_one s : WellFormed s -> describes_one s = true.
Proof. destruct 1 as [| ? ? ? ? H | ? ? ? ? ? H]; [reflexivity | ..]; phases H; reflexivity. Qed.

Lemma startNextPhase_well_formed settings now w :
  WellFormed (state w) -> WellFormed (state (startNextPhase settings now w)).
Proof.
  destruct w as [s a p st]. cbn [state]. intros H. unfold startNextPhase.
  destruct H as [| ph t0 e c Ha | ph t0 e r c Ha]; cbn [state phase cycleCount];
    try phases Ha; cbn [String.eqb Ascii.eqb Bool.eqb orb];
    try destruct (JS.rem_is_zero _ _); cbn;
    constructor; unfold active; auto.
Qed.

Lemma pauseTimer_well_formed now w :
  WellFormed (state w) -> WellFormed (state (pauseTimer now w)).
Proof.
  destruct w as [s a p st]. cbn [state]. intros H. unfold pauseTimer.
  destruct H as [| ph t0 e c Ha | ph t0 e r c Ha]; cbn;
    now constructor.
Qed.

Lemma resumeTimer_well_formed now w :
  WellFormed (state w) -> WellFormed (state (resumeTimer now w)).
Proof.
  destruct w as [s a p st]. cbn [state]. intros H. unfold resumeTimer.
  destruct H as [| ph t0 e c Ha | ph t0 e r c Ha]; cbn;
    now constructor.
Qed.

Lemma call_well_formed c w :
  WellFormed (state w) -> WellFormed (state (call c w)).
Proof.
  destruct c; cbn [call];
    auto using startNextPhase_well_formed, pauseTimer_well_formed,
               resumeTimer_well_formed.
Qed.

Lemma trace_well_formed cs : forall w,
  WellFormed (state w) -> Forall (fun w' => WellFormed (state w')) (trace cs w).
Proof.
  induction cs as [| c cs IH]; intros w H; cbn [trace]; constructor.
  - now apply call_well_formed.
  - apply IH. now apply call_well_formed.
Qed.

(** With the default interval of 4 the breaks go short, short, short, long. *)
Example break_sequence :
  map (fun w => phase (state w))
      (trace (repeat (Start DEFAULT_SETTINGS 0) 10) initial_world)
  = ["work"; "short_break"; "work"; "short_break"; "work"; "short_break";
     "work"; "long_break"; "work"; "short_break"].
Proof. reflexivity. Qed.

(** The state the alarm listener leaves when a phase has just completed is
    none of the three; it is not reached by start, pause and resume alone. *)
Example completed_state_not_described :
  describes_one (mkState "work" false (Some 0) (Some 1500000) None 0) = false.
Proof. reflexivity. Qed.

(** C1. After each call of any finite sequence of start(), pause() and
    resume() calls made from the initial idle state, exactly one of idle,
    running with an end time, paused with a remaining time describes the
    timer state. *)
Theorem start_pause_resume_describes_one (cs : list Call) :
  Forall (fun w => describes_one (state w) = true) (trace cs initial_world).
Proof.
  eapply Forall_impl; [apply trace_well_formed; constructor |].
  intros w. apply well_formed_describes_one.
Qed.

(** [a % b === 0] is divisibility for a positive dividend, also when the
    divisor is zero or negative. *)
Lemma rem_is_zero_divide a b :
  0 < a -> JS.rem_is_zero a b = true <-> (b | a).
Proof.
  intros Ha. unfold JS.rem_is_zero.
  destruct (Z.eqb_spec b 0) as [-> | Hb].
  - split; [discriminate |]. intros [k Hk]. lia.
  - rewrite Z.eqb_eq. now apply Z.rem_divide.
Qed.

Lemma rem_is_zero_not_divide a b :
  0 < a -> JS.rem_is_zero a b = false <-> ~ (b | a).
Proof.
  intros Ha. rewrite <- (rem_is_zero_divide a b Ha).
  destruct (JS.rem_is_zero a b); split; congruence.
Qed.

(** What [startNextPhase] does, by the phase it leaves. *)
Lemma startNextPhase_to_work settings now w :
  phase (state w) = "idle" \/ phase (state w) = "short_break"
  \/ phase (state w) = "long_break" ->
  startNextPhase settings now w =
  startTimer "work" (cycleCount (state w)) (workDuration settings) now w.
Proof.
  unfold startNextPhase. intros [-> | [-> | ->]]; reflexivity.
Qed.

Lemma startNextPhase_from_work settings now w :
  phase (state w) = "work" ->
  startNextPhase settings now w =
  if JS.rem_is_zero (cycleCount (state w) + 1) (longBreakInterval settings)
  then startTimer "long_break" (cycleCount (state w) + 1)
                  (longBreakDuration settings) now w
  else startTimer "short_break" (cycleCount (state w) + 1)
                  (shortBreakDuration settings) now w.
Proof. unfold startNextPhase. intros ->. reflexivity. Qed.

Lemma startNextPhase_unexpected settings now w :
  phase (state w) <> "idle" -> phase (state w) <> "work" ->
  phase (state w) <> "short_break" -> phase (state w) <> "long_break" ->
  startNextPhase settings now w = resetTimer w.
Proof.
  unfold startNextPhase. intros H1 H2 H3 H4.
  apply String.eqb_neq in H1, H2, H3, H4.
  now rewrite H1, H2, H3, H4.
Qed.

(** C2. The transition rule of start(): leaving Work adds one to
    cycleCount and goes to LongBreak exactly when the new cycleCount is
    divisible by longBreakInterval, otherwise to ShortBreak; leaving Idle,
    ShortBreak or LongBreak goes to Work; any other phase value makes a
    full reset to Idle. *)
Theorem startNextPhase_transition settings now w :
  0 <= cycleCount (state w) ->
  let s := state w in
  let s' := state (startNextPhase settings now w) in
  (phase s = "work" ->
     cycleCount s' = cycleCount s + 1
     /\ (phase s' = "long_break" <->
         (longBreakInterval settings | cycleCount s'))
     /\ (phase s' = "short_break" <->
         ~ (longBreakInterval settings | cycleCount s')))
  /\ (phase s = "idle" \/ phase s = "short_break" \/ phase s = "long_break" ->
      phase s' = "work" /\ cycleCount s' = cycleCount s)
  /\ (phase s <> "idle" -> phase s <> "work" ->
      phase s <> "short_break" -> phase s <> "long_break" ->
      startNextPhase settings now w = resetTimer w /\ s' = idle_state).
Proof.
  intros Hc s s'. subst s s'. split; [| split].
  - intros Hw. rewrite (startNextPhase_from_work _ _ _ Hw).
    assert (Hpos : 0 < cycleCount (state w) + 1) by lia.
    destruct (JS.rem_is_zero _ _) eqn:E; cbn.
    + apply (rem_is_zero_divide _ _ Hpos) in E.
      repeat split; auto; try discriminate. intros H. now destruct H.
    + apply (rem_is_zero_not_divide _ _ Hpos) in E.
      repeat split; auto; try discriminate. intros H. now destruct E.
  - intros Hp. rewrite (startNextPhase_to_work _ _ _ Hp). now cbn.
  - intros H1 H2 H3 H4.
    now rewrite (startNextPhase_unexpected _ _ _ H1 H2 H3 H4).
Qed.

Lemma startNextPhase_transition_witness :
  let w := mkWorld (mkState "work" false (Some 0) (Some 1500000) (Some 900000) 3)
                   ∅ [] empty_storage in
  let s' := state (startNextPhase DEFAULT_SETTINGS 600000 w) in
  0 <= cycleCount (state w) /\ cycleCount s' = 4 /\ phase s' = "long_break".
Proof.
  cbv zeta.
  pose proof (startNextPhase_transition DEFAULT_SETTINGS 600000
    (mkWorld (mkState "work" false (Some 0) (Some 1500000) (Some 900000) 3)
             ∅ [] empty_storage)) as H.
  cbv zeta in H. destruct H as [H _]; [cbn; lia |].
  destruct (H eq_refl) as (Hc & Hl & _).
  split; [cbn; lia |]. split; [exact Hc |].
  apply Hl. rewrite Hc. exists 1. reflexivity.
Defined.

(** C3, as stated, fails: start() on a running Work phase with the default
    settings leaves Work for ShortBreak, counts a cycle and sets new start
    and end times. *)
Lemma start_while_running_changes_state :
  let w := mkWorld (mkState "work" true (Some 0) (Some 1500000) None 0)
                   ∅ [] empty_storage in
  running (state w) = true
  /\ state (startNextPhase DEFAULT_SETTINGS 60000 w)
     = mkState "short_break" true (Some 60000) (Some 360000) None 1
  /\ state (startNextPhase DEFAULT_SETTINGS 60000 w) <> state w.
Proof. cbv zeta. repeat split. discriminate. Qed.

(** C3, amended. start() does not look at [running]: on a running state it
    leaves the current phase as it would from a state that is not running.
    The phase always changes; from Idle, ShortBreak or LongBreak a full
    Work phase begins now with cycleCount kept; from Work cycleCount grows
    by one and a full LongBreak or ShortBreak begins now. *)
Theorem start_while_running settings now w :
  running (state w) = true ->
  let s := state w in
  let s' := state (startNextPhase settings now w) in
  phase s' <> phase s
  /\ (phase s = "idle" \/ phase s = "short_break" \/ phase s = "long_break" ->
      s' = mkState "work" true (Some now)
                   (Some (now + workDuration settings * 60 * 1000)) None
                   (cycleCount s))
  /\ (phase s = "work" ->
      s' = mkState "long_break" true (Some now)
                   (Some (now + longBreakDuration settings * 60 * 1000)) None
                   (cycleCount s + 1)
      \/ s' = mkState "short_break" true (Some now)
                   (Some (now + shortBreakDuration settings * 60 * 1000)) None
                   (cycleCount s + 1)).
Proof.
  intros _ s s'. subst s s'.
  assert (Hwork : phase (state w) = "work" ->
    state (startNextPhase settings now w)
    = mkState "long_break" true (Some now)
              (Some (now + longBreakDuration settings * 60 * 1000)) None
              (cycleCount (state w) + 1)
    \/ state (startNextPhase settings now w)
    = mkState "short_break" true (Some now)
              (Some (now + shortBreakDuration settings * 60 * 1000)) None
              (cycleCount (state w) + 1)).
  { intros Hw. rewrite (startNextPhase_from_work _ _ _ Hw).
    destruct (JS.rem_is_zero _ _); [left | right]; reflexivity. }
  assert (Hrest : phase (state w) = "idle" \/ phase (state w) = "short_break"
                  \/ phase (state w) = "long_break" ->
    state (startNextPhase settings now w)
    = mkState "work" true (Some now)
              (Some (now + workDuration settings * 60 * 1000)) None
              (cycleCount (state w))).
  { intros Hp. now rewrite (startNextPhase_to_work _ _ _ Hp). }
  split; [| split; assumption].
  destruct (String.eqb_spec (phase (state w)) "work") as [Hw | Hw].
  - destruct (Hwork Hw) as [-> | ->]; rewrite Hw; discriminate.
  - destruct (String.eqb_spec (phase (state w)) "idle") as [Hi | Hi];
      [rewrite (Hrest (or_introl Hi)), Hi; discriminate |].
    destruct (String.eqb_spec (phase (state w)) "short_break") as [Hs | Hs];
      [rewrite (Hrest (or_intror (or_introl Hs))), Hs; discriminate |].
    destruct (String.eqb_spec (phase (state w)) "long_break") as [Hl | Hl];
      [rewrite (Hrest (or_intror (or_intror Hl))), Hl; discriminate |].
    rewrite (startNextPhase_unexpected _ _ _ Hi Hw Hs Hl). cbn. congruence.
Qed.

Lemma start_while_running_witness :
  let w := mkWorld (mkState "short_break" true (Some 0) (Some 300000) None 1)
                   ∅ [] empty_storage in
  running (state w) = true
  /\ state (startNextPhase DEFAULT_SETTINGS 60000 w)
     = mkState "work" true (Some 60000) (Some (60000 + 25 * 60 * 1000)) None 1.
Proof.
  cbv zeta. split; [reflexivity |].
  refine (proj1 (proj2 (start_while_running DEFAULT_SETTINGS 60000
    (mkWorld (mkState "short_break" true (Some 0) (Some 300000) None 1)
             ∅ [] empty_storage) eq_refl)) _).
  right; left; reflexivity.
Defined.

(** C4, as stated, fails: pause() keeps [endTime]. *)
Lemma pause_keeps_endTime :
  let w := mkWorld (mkState "work" true (Some 0) (Some 1500000) None 0)
                   ∅ [] empty_storage in
  running (state w) = true
  /\ endTime (state (pauseTimer 60000 w)) = Some 1500000
  /\ endTime (state (pauseTimer 60000 w)) <> None.
Proof. cbv zeta. repeat split. discriminate. Qed.

(** C4, amended. On a running state pause() at time [now] sets
    remainingTime to max(endTime - now, 0) and running to false, leaves
    phase, startTime, endTime and cycleCount as they are and clears the
    alarms; on a state that is not running it changes nothing. *)
Theorem pauseTimer_spec now w :
  (running (state w) = true ->
     state (pauseTimer now w)
     = mkState (phase (state w)) false (startTime (state w))
               (endTime (state w))
               (Some (Z.max (JS.num (endTime (state w)) - now) 0))
               (cycleCount (state w))
     /\ alarms (pauseTimer now w) = ∅)
  /\ (running (state w) = false -> pauseTimer now w = w).
Proof.
  unfold pauseTimer. split; intros ->; cbn; auto.
Qed.

Lemma pauseTimer_spec_witness :
  let w := mkWorld (mkState "work" true (Some 0) (Some 1500000) None 0)
                   ∅ [] empty_storage in
  running (state w) = true
  /\ state (pauseTimer 60000 w)
     = mkState "work" false (Some 0) (Some 1500000) (Some 1440000) 0
  /\ running (state (pauseTimer 60000 w)) = false
  /\ pauseTimer 70000 (pauseTimer 60000 w) = pauseTimer 60000 w.
Proof.
  cbv zeta. split; [reflexivity |]. split; [| split; [reflexivity |]].
  - exact (proj1 (proj1 (pauseTimer_spec 60000
      (mkWorld (mkState "work" true (Some 0) (Some 1500000) None 0)
               ∅ [] empty_storage)) eq_refl)).
  - exact (proj2 (pauseTimer_spec 70000
      (pauseTimer 60000
         (mkWorld (mkState "work" true (Some 0) (Some 1500000) None 0)
                  ∅ [] empty_storage))) eq_refl).
Defined.

(** C5, as stated, fails on a running phase whose end time has passed (the
    alarm is late): with endTime 100 at time 200 the time left by the clock
    is -100 before the pause, and 0 after pause() and resume(), which set
    endTime to 200. *)
Lemma pause_resume_overdue :
  let w := mkWorld (mkState "work" true (Some 0) (Some 100) None 0)
                   ∅ [] empty_storage in
  let s' := state (resumeTimer 200 (pauseTimer 200 w)) in
  running (state w) = true
  /\ JS.num (endTime (state w)) - 200 = -100
  /\ running s' = true
  /\ endTime s' = Some 200
  /\ JS.num (endTime s') - 200 = 0
  /\ JS.num (endTime s') - 200 <> JS.num (endTime (state w)) - 200.
Proof. cbv zeta. repeat split. discriminate. Qed.

(** C5, amended. pause() and then resume() at the same instant on a running
    state give a running state whose remaining time, endTime - now, is
    max(endTime - now, 0) of the state before the pause.  When the end time
    had not passed the remaining time is unchanged and endTime is restored
    as it was; when it had passed the remaining time is 0 and endTime
    becomes now.  Phase and cycleCount are kept. *)
Theorem pause_resume_same_instant now w :
  running (state w) = true ->
  let s := state w in
  let s' := state (resumeTimer now (pauseTimer now w)) in
  running s' = true
  /\ remainingTime s' = None
  /\ JS.num (endTime s') - now = Z.max (JS.num (endTime s) - now) 0
  /\ (now <= JS.num (endTime s) ->
      JS.num (endTime s') - now = JS.num (endTime s) - now)
  /\ (forall e, endTime s = Some e -> now <= e -> endTime s' = Some e)
  /\ (JS.num (endTime s) < now -> endTime s' = Some now)
  /\ msLeft now s' = msLeft now s
  /\ phase s' = phase s /\ cycleCount s' = cycleCount s.
Proof.
  intros Hr s s'. subst s s'.
  unfold resumeTimer, pauseTimer, msLeft. rewrite Hr. cbn.
  split; [reflexivity |]. split; [reflexivity |]. split; [lia |].
  split; [lia |]. split; [intros e -> He; cbn; f_equal; lia |].
  split; [intros Hlt; f_equal; lia |].
  split; [lia |]. split; reflexivity.
Qed.

Lemma pause_resume_same_instant_witness :
  let w := mkWorld (mkState "work" true (Some 0) (Some 1500000) None 0)
                   ∅ [] empty_storage in
  (running (state w) = true /\ 60000 <= JS.num (endTime (state w)))
  /\ JS.num (endTime (state (resumeTimer 60000 (pauseTimer 60000 w)))) - 60000
     = JS.num (endTime (state w)) - 60000
  /\ endTime (state (resumeTimer 60000 (pauseTimer 60000 w))) = Some 1500000.
Proof.
  cbv zeta.
  assert (Hr : running (state (mkWorld
                 (mkState "work" true (Some 0) (Some 1500000) None 0)
                 ∅ [] empty_storage)) = true) by reflexivity.
  assert (Hle : 60000 <= 1500000) by lia.
  destruct (pause_resume_same_instant 60000
    (mkWorld (mkState "work" true (Some 0) (Some 1500000) None 0)
             ∅ [] empty_storage) Hr) as (_ & _ & _ & Hsame & Hend & _).
  split; [split; [exact Hr | exact Hle] |].
  split; [exact (Hsame Hle) | exact (Hend 1500000 eq_refl Hle)].
Defined.

(** C10. start() on a Work phase that is paused does not resume it: the
    cycle is counted, the remaining time is dropped and a break of full
    length begins now, a LongBreak when the new cycleCount is divisible by
    longBreakInterval and a ShortBreak otherwise. *)
Theorem start_from_paused_work settings now w r :
  phase (state w) = "work" ->
  running (state w) = false ->
  remainingTime (state w) = Some r ->
  0 <= cycleCount (state w) ->
  let s := state w in
  let s' := state (startNextPhase settings now w) in
  cycleCount s' = cycleCount s + 1
  /\ remainingTime s' = None
  /\ running s' = true
  /\ startTime s' = Some now
  /\ ((longBreakInterval settings | cycleCount s') ->
      phase s' = "long_break"
      /\ endTime s' = Some (now + longBreakDuration settings * 60 * 1000))
  /\ (~ (longBreakInterval settings | cycleCount s') ->
      phase s' = "short_break"
      /\ endTime s' = Some (now + shortBreakDuration settings * 60 * 1000)).
Proof.
  intros Hw _ _ Hc s s'. subst s s'.
  rewrite (startNextPhase_from_work _ _ _ Hw).
  assert (Hpos : 0 < cycleCount (state w) + 1) by lia.
  destruct (JS.rem_is_zero _ _) eqn:E; cbn.
  - apply (rem_is_zero_divide _ _ Hpos) in E.
    do 4 (split; [reflexivity |]). split; [auto | intros Hn; now destruct Hn].
  - apply (rem_is_zero_not_divide _ _ Hpos) in E.
    do 4 (split; [reflexivity |]). split; [intros Hd; now destruct E | auto].
Qed.

Lemma start_from_paused_work_witness :
  let w := mkWorld (mkState "work" false (Some 0) (Some 1500000) (Some 900000) 0)
                   ∅ [] empty_storage in
  let s' := state (startNextPhase DEFAULT_SETTINGS 600000 w) in
  (phase (state w) = "work" /\ running (state w) = false
   /\ remainingTime (state w) = Some 900000 /\ 0 <= cycleCount (state w))
  /\ cycleCount s' = 1 /\ remainingTime s' = None /\ running s' = true.
Proof.
  cbv zeta. split; [repeat split; cbn; lia |].
  pose proof (start_from_paused_work DEFAULT_SETTINGS 600000
    (mkWorld (mkState "work" false (Some 0) (Some 1500000) (Some 900000) 0)
             ∅ [] empty_storage) 900000 eq_refl eq_refl eq_refl) as H.
  cbv zeta in H. destruct H as (H1 & H2 & H3 & _); [cbn; lia |].
  repeat split; assumption.
Defined.

End TimerFacts.

(* ===================================================================== *)
(** * Alarms and deferred continuations                                   *)
(* ===================================================================== *)

Module EventLoopFacts.

Import Calendar Worker.

Lemma take_In t l : In t l -> exists rest, take t l = Some rest.
Proof.
  induction l as [| x l IH]; intros H; [destruct H |]. cbn [take].
  destruct (decide (x = t)) as [-> | Hne]; [eauto |].
  destruct H as [-> | H]; [congruence |].
  destruct (IH H) as [rest ->]. eauto.
Qed.

(** While no alarm is registered, the only event that registers one is the
    callback of [scheduleAlarms] on a state that is running. *)
Lemma alarms_stay_cleared {tz : TimeZone} e w w' :
  alarms w = ∅ -> handle e w = Some w' ->
  alarms w' = ∅ \/ (exists now, e = Run ArmAlarms now) /\ running (state w) = true.
Proof.
  intros Ha H. destruct e as [| now | now | | ns | | name now | t now];
    cbn [handle] in H.
  - inversion H; subst; now left.
  - inversion H; subst. left. unfold pauseTimer.
    destruct (running (state w)); cbn; auto.
  - inversion H; subst. left. unfold resumeTimer.
    destruct (running (state w)); auto.
    destruct (remainingTime (state w)); cbn; auto.
  - inversion H; subst; now left.
  - inversion H; subst; now left.
  - inversion H; subst; now left.
  - rewrite Ha, lookup_empty in H. discriminate.
  - destruct (take t (pending w)) as [rest |]; [| discriminate].
    destruct t as [| | k | due]; cbn [runTask] in H.
    + inversion H; subst. unfold armAlarms. cbn [state].
      destruct (running (state w)) eqn:Hr; [right; eauto | now left].
    + inversion H; subst. left. unfold startNextPhase. cbn [state].
      repeat match goal with
             | |- context [if ?b then _ else _] => destruct b
             end; reflexivity.
    + cbn [store state alarms pending] in H.
      destruct (incrementStat k (store w)); inversion H; subst; now left.
    + destruct (due <=? now); inversion H; subst; now left.
Qed.

(** A state that is running always has an end time, whatever events the
    worker has seen; so the callback of [scheduleAlarms] never registers an
    alarm without a time. *)
Ltac armed_done Hw :=
  cbn; first [ exact Hw
             | discriminate
             | let Hx := fresh in
               intros Hx;
               first [ congruence | apply Hw; congruence | eauto ] ].

Lemma handle_Armed {tz : TimeZone} e w w' :
  Armed (state w) -> handle e w = Some w' -> Armed (state w').
Proof.
  unfold Armed. intros Hw H.
  destruct e as [| now | now | | ns | | name now | t now]; cbn [handle] in H.
  - inversion H; subst; exact Hw.
  - inversion H; subst. unfold pauseTimer.
    destruct (running (state w)) eqn:Hr; armed_done Hw.
  - inversion H; subst. unfold resumeTimer.
    destruct (running (state w)) eqn:Hr; [armed_done Hw |].
    destruct (remainingTime (state w)); armed_done Hw.
  - inversion H; subst. discriminate.
  - inversion H; subst; exact Hw.
  - inversion H; subst; exact Hw.
  - destruct (alarms w !! name) as [a |]; [| discriminate].
    destruct (when a <=? now); [| discriminate].
    inversion H; subst. unfold onAlarm.
    destruct (String.eqb name "timerEnd"); [| exact Hw].
    cbn [state]. destruct (String.eqb (phase (state w)) "work");
      armed_done Hw.
  - destruct (take t (pending w)) as [rest |]; [| discriminate].
    destruct t as [| | k | due]; cbn [runTask] in H.
    + inversion H; subst. unfold armAlarms. cbn [state].
      destruct (running (state w)) eqn:Hr; armed_done Hw.
    + inversion H; subst. unfold startNextPhase. cbn [state].
      repeat match goal with
             | |- context [if ?b then _ else _] => destruct b
             end; armed_done Hw.
    + cbn [store state alarms pending] in H.
      destruct (incrementStat k (store w)); inversion H; subst;
        armed_done Hw.
    + destruct (due <=? now); inversion H; subst; exact Hw.
Qed.

Lemma run_Armed {tz : TimeZone} es : forall w w',
  Armed (state w) -> run es w = Some w' -> Armed (state w').
Proof.
  induction es as [| e es IH]; intros w w' Hw H; cbn [run] in H.
  - inversion H; subst; exact Hw.
  - destruct (handle e w) as [w1 |] eqn:E; [| discriminate].
    eapply IH; [| exact H]. eapply handle_Armed; eassumption.
Qed.

Lemma reachable_Armed {tz : TimeZone} es w :
  run es initial_world = Some w -> Armed (state w).
Proof. apply run_Armed. discriminate. Qed.

(** C6. reset() gives exactly the idle state with all fields cleared and
    cycleCount 0, and leaves no alarm registered: afterwards no alarm can
    go off, and a callback of an earlier [scheduleAlarms] that is still
    waiting registers nothing. *)
Theorem resetTimer_spec {tz : TimeZone} (w : World) :
  handle MsgReset w = Some (resetTimer w)
  /\ state (resetTimer w) = mkState "idle" false None None None 0
  /\ alarms (resetTimer w) = ∅
  /\ (forall name now, handle (AlarmFires name now) (resetTimer w) = None)
  /\ (forall now, armAlarms now (resetTimer w) = resetTimer w)
  /\ (forall now,
        match handle (Run ArmAlarms now) (resetTimer w) with
        | Some w' => alarms w' = ∅ /\ state w' = state (resetTimer w)
        | None => True
        end).
Proof.
  do 3 (split; [reflexivity |]). split; [| split].
  - intros name now. cbn. now rewrite lookup_empty.
  - intros now. reflexivity.
  - intros now. cbn [handle resetTimer pending].
    destruct (take ArmAlarms (pending w)); cbn; auto.
Qed.

(** C7, as stated, fails.  A Work phase is started and runs to its end; the
    alarm listener marks it complete and defers the next start by half a
    second; reset() in that window returns the state to idle, and the
    deferred start then begins a Work phase all the same. *)
Lemma reset_does_not_cancel_auto_start :
  match run (tz := utc) [MsgStart; Run AwaitSettings 0; Run ArmAlarms 1;
             AlarmFires "timerEnd" 1500000;
             Run (AwaitStat "1970-01-01") 1500001] initial_world with
  | Some w =>
      pending w = [AutoStart 1500501]
      /\ state (resetTimer w) = idle_state
      /\ match run (tz := utc) [Run (AutoStart 1500501) 1500600;
                    Run AwaitSettings 1500601] (resetTimer w) with
         | Some w' =>
             phase (state w') = "work" /\ running (state w') = true
             /\ phase (state w') <> "idle"
         | None => False
         end
  | None => False
  end.
Proof. vm_compute. repeat split. discriminate. Qed.

(** C7, amended. reset() does not cancel the deferred start of the next
    phase: the state is idle after the reset and stays idle when the delay
    runs out, but the deferred start() is still waiting, runs, and from
    Idle begins a Work phase with cycleCount 0. *)
Theorem reset_keeps_auto_start {tz : TimeZone} w due now now' :
  In (AutoStart due) (pending w) ->
  due <= now ->
  exists w1 w2,
    In (AutoStart due) (pending (resetTimer w))
    /\ state (resetTimer w) = idle_state
    /\ handle (Run (AutoStart due) now) (resetTimer w) = Some w1
    /\ state w1 = idle_state
    /\ handle (Run AwaitSettings now') w1 = Some w2
    /\ state w2
       = mkState "work" true (Some now')
           (Some (now' + workDuration (getSettings (store w)) * 60 * 1000))
           None 0.
Proof.
  intros Hin Hdue.
  destruct (take_In _ _ Hin) as [rest Hrest].
  assert (Hin' : In AwaitSettings (rest ++ [AwaitSettings]))
    by (apply in_or_app; right; now left).
  destruct (take_In _ _ Hin') as [rest' Hrest'].
  eexists _, _. split; [exact Hin |]. split; [reflexivity |].
  cbn [handle resetTimer pending runTask state alarms store].
  rewrite Hrest. replace (due <=? now) with true
    by (symmetry; apply Z.leb_le; exact Hdue).
  split; [reflexivity |]. split; [reflexivity |].
  cbn [handle pending runTask state alarms store]. rewrite Hrest'.
  split; reflexivity.
Qed.

Lemma reset_keeps_auto_start_witness :
  let w := mkWorld (mkState "work" false (Some 0) (Some 1500000) None 0)
                   ∅ [AutoStart 1500500] empty_storage in
  In (AutoStart 1500500) (pending w) /\ 1500500 <= 1500600
  /\ exists w1 w2,
    In (AutoStart 1500500) (pending (resetTimer w))
    /\ state (resetTimer w) = idle_state
    /\ handle (tz := utc) (Run (AutoStart 1500500) 1500600) (resetTimer w) = Some w1
    /\ state w1 = idle_state
    /\ handle (tz := utc) (Run AwaitSettings 1500700) w1 = Some w2
    /\ state w2
       = mkState "work" true (Some 1500700)
           (Some (1500700 + workDuration (getSettings (store w)) * 60 * 1000))
           None 0.
Proof.
  cbv zeta. split; [left; reflexivity |]. split; [lia |].
  apply reset_keeps_auto_start; [left; reflexivity | lia].
Defined.

End EventLoopFacts.

(* ===================================================================== *)
(** * Statistics                                                          *)
(* ===================================================================== *)

Module StatsFacts.

Import Calendar CalendarFacts Worker.

Lemma dayKey_not_empty d : minDay <= d <= maxDay -> dayKey d <> "".
Proof.
  intros Hd E. pose proof (parseDate_dayKey d Hd) as P.
  rewrite E in P. discriminate.
Qed.

Lemma same_key_refl k : same_key (Some k) k = true.
Proof. apply String.eqb_refl. Qed.

Lemma same_key_ne a k : a <> k -> same_key (Some a) k = false.
Proof. intros H. now apply String.eqb_neq. Qed.

(** Completions on three days in a row, twice on one day, and after a gap,
    where the clock is never changed. *)
Example streak_examples :
  let complete k st := storage_of (incrementStat (tz := utc) k st) in
  let day1 := complete "2024-02-28" empty_storage in
  let day2 := complete "2024-02-29" day1 in
  let day3 := complete "2024-03-01" day2 in
  streak day1 = Some 1 /\ streak day2 = Some 2 /\ streak day3 = Some 3
  /\ streak (complete "2024-02-28" day1) = Some 1
  /\ streak (complete "2024-03-02" day1) = Some 1
  /\ lastStreakDate day3 = Some "2024-03-01".
Proof. vm_compute. repeat split. Qed.

(** C8. The streak rule fails in the code where the clock is changed.  In
    New York a Work phase completes on 4 November 2024 (15:00 UTC), the
    day after the clock was turned back, with a streak of 3 whose last date
    is the day before, 3 November.  The rule asks for a streak of 4;
    [incrementStat] takes 2 November for the day before and sets the streak
    to 1. *)
Theorem streak_lost_after_clock_change :
  let now := 1730732400000 in
  let store := mkStorage None None (Some 3) (Some "2024-11-03") in
  let after := storage_of (incrementStat (tz := newYork2024) (isoDate now) store) in
  isoDate now = "2024-11-04"
  /\ lastStreakDate store = Some (dayKey (day_of now - 1))
  /\ incrementStat (tz := newYork2024) (isoDate now) store = Returned after
  /\ streak after = Some 1
  /\ streak after <> Some (JS.or_zero (streak store) + 1)
  /\ lastStreakDate after = Some "2024-11-04".
Proof. vm_compute. repeat split; discriminate. Qed.

(** The streak rule where the clock is never changed: on a completion with
    date key today, with no lastStreakDate the streak becomes 1; with
    lastStreakDate the day before today it grows by 1; with lastStreakDate
    today it stays as it is; with any other lastStreakDate it becomes 1; in
    every case lastStreakDate is today afterwards. *)
Theorem streak_rule_fixed_zone c now store :
  minDay < day_of now <= maxDay ->
  let today := isoDate now in
  let yesterday := dayKey (day_of now - 1) in
  exists store',
    incrementStat (tz := fixedZone c) today store = Returned store'
    /\ lastStreakDate store' = Some today
    /\ (lastStreakDate store = None -> streak store' = Some 1)
    /\ (lastStreakDate store = Some yesterday ->
        streak store' = Some (JS.or_zero (streak store) + 1))
    /\ (lastStreakDate store = Some today ->
        streak store' = Some (JS.or_zero (streak store)))
    /\ (forall d, lastStreakDate store = Some d ->
        d <> yesterday -> d <> today -> streak store' = Some 1).
Proof.
  intros Hd today yesterday. subst today yesterday. unfold isoDate at 1 2 3 4.
  set (d := day_of now) in *.
  assert (Hr1 : minDay <= d <= maxDay) by lia.
  assert (Hr0 : minDay <= d - 1 <= maxDay) by lia.
  assert (Hne : dayKey d <> dayKey (d - 1)).
  { intros E. apply dayKey_inj in E; [lia | assumption | assumption]. }
  unfold incrementStat.
  rewrite (parseDate_dayKey d Hr1), isoDate_setDate_fixed, day_of_midnight.
  destruct (lastStreakDate store) as [last |] eqn:El; cbn [JS.truthy].
  - destruct (String.eqb_spec last "") as [-> | Hnonempty]; cbn [negb].
    + eexists. split; [reflexivity |]. split; [reflexivity |].
      split; [discriminate |].
      split; [intros [= E]; symmetry in E; now apply dayKey_not_empty in E |].
      split; [intros [= E]; symmetry in E; now apply dayKey_not_empty in E |].
      reflexivity.
    + eexists. split; [reflexivity |]. split; [reflexivity |].
      cbn [streak]. split; [discriminate |].
      split; [intros [= ->]; now rewrite same_key_refl |].
      split.
      * intros [= ->]. rewrite (same_key_ne _ _ Hne), same_key_refl.
        reflexivity.
      * intros k [= ->] Hy Ht.
        now rewrite (same_key_ne _ _ Hy), (same_key_ne _ _ Ht).
  - eexists. split; [reflexivity |]. split; [reflexivity |].
    split; [reflexivity |]. repeat split; discriminate.
Qed.

Lemma streak_rule_fixed_zone_witness :
  let store := mkStorage None None (Some 3) (Some "2024-02-28") in
  minDay < day_of 1709164800000 <= maxDay
  /\ exists store',
    incrementStat (tz := fixedZone 3600000) "2024-02-29" store = Returned store'
    /\ lastStreakDate store' = Some "2024-02-29"
    /\ streak store' = Some 4.
Proof.
  cbv zeta. split; [vm_compute; split; [reflexivity | discriminate] |].
  destruct (streak_rule_fixed_zone 3600000 1709164800000
              (mkStorage None None (Some 3) (Some "2024-02-28")))
    as (store' & Hi & Hl & _ & Hy & _).
  - vm_compute; split; [reflexivity | discriminate].
  - exists store'. split; [exact Hi |]. split; [exact Hl |].
    apply Hy. reflexivity.
Defined.



(** C9. The week sum fails in the code where the clock is changed.  In New
    York at 2024-03-10T23:30Z, the day the clock was put forward, with one
    completion today and five on 4 March, six days ago, the sum over today
    and the six days before is 6; [computeStatsSummary] looks today's key up
    twice and 4 March never, and reports a week of 2. *)
Theorem week_wrong_after_clock_change :
  let now := 1710113400000 in
  let ledger : gmap string Z :=
    <["2024-03-10" := 1]> (<["2024-03-04" := 5]> ∅) in
  let store := mkStorage None (Some ledger) None None in
  let count i := JS.or_zero (ledger !! dayKey (day_of now - i)) in
  isoDate now = "2024-03-10"
  /\ dayKey (day_of now - 6) = "2024-03-04"
  /\ count 0 + count 1 + count 2 + count 3 + count 4 + count 5 + count 6 = 6
  /\ today (computeStatsSummary (tz := newYork2024) now store) = 1
  /\ week (computeStatsSummary (tz := newYork2024) now store) = 2.
Proof. vm_compute. repeat split. Qed.



End StatsFacts.

(* ===================================================================== *)
(** * What every reachable world satisfies                                *)
(* ===================================================================== *)

Module InvariantFacts.

Import Calendar CalendarFacts Worker Invariants.

Ltac sound_done :=
  constructor; cbn;
  [ first [ now left | right; unfold active; now auto ]
  | first [ discriminate
          | intros _; split; [unfold active; now auto | split; [eauto | reflexivity]] ]
  | first [ discriminate | intros ? [= <-]; split; [lia | unfold active; now auto] ]
  | lia ].

Lemma idle_Sound : Sound idle_state.
Proof. sound_done. Qed.

Lemma startNextPhase_Sound settings now w :
  Sound (state w) -> Sound (state (startNextPhase settings now w)).
Proof.
  intros [Hp Hr Hrem Hc]. unfold startNextPhase.
  destruct Hp as [E | [E | [E | E]]]; rewrite E;
    cbn [String.eqb Ascii.eqb Bool.eqb orb];
    try destruct (JS.rem_is_zero _ _); sound_done.
Qed.

Lemma pauseTimer_Sound now w :
  Sound (state w) -> Sound (state (pauseTimer now w)).
Proof.
  intros Hs. unfold pauseTimer.
  destruct (running (state w)) eqn:E; [| exact Hs].
  destruct Hs as [Hp Hr Hrem Hc]. destruct (Hr E) as (Ha & _ & _).
  constructor; cbn.
  - now right.
  - discriminate.
  - intros r [= <-]. split; [lia | exact Ha].
  - exact Hc.
Qed.

Lemma resumeTimer_Sound now w :
  Sound (state w) -> Sound (state (resumeTimer now w)).
Proof.
  intros Hs. unfold resumeTimer.
  destruct (running (state w)) eqn:E; [exact Hs |].
  destruct (remainingTime (state w)) as [r |] eqn:Er; [| exact Hs].
  destruct Hs as [Hp Hr Hrem Hc]. destruct (Hrem r Er) as (Hr0 & Ha).
  constructor; cbn.
  - now right.
  - intros _. split; [exact Ha | split; [eauto | reflexivity]].
  - discriminate.
  - exact Hc.
Qed.

Lemma completePhase_Sound now w :
  Sound (state w) -> Sound (state (completePhase now w)).
Proof.
  intros [Hp Hr Hrem Hc]. constructor; cbn; try discriminate; assumption.
Qed.

Lemma handle_Sound {tz : TimeZone} e w w' :
  Sound (state w) -> handle e w = Some w' -> Sound (state w').
Proof.
  intros Hs H.
  destruct e as [| now | now | | ns | | name now | t now]; cbn [handle] in H.
  - inversion H; subst; exact Hs.
  - inversion H; subst. now apply pauseTimer_Sound.
  - inversion H; subst. now apply resumeTimer_Sound.
  - inversion H; subst. exact idle_Sound.
  - inversion H; subst; exact Hs.
  - inversion H; subst; exact Hs.
  - destruct (alarms w !! name) as [a |]; [| discriminate].
    destruct (when a <=? now); [| discriminate].
    inversion H; subst. unfold onAlarm.
    destruct (String.eqb name "timerEnd"); [| exact Hs].
    cbn [state]. destruct (String.eqb (phase (state w)) "work"); [exact Hs |].
    now apply (completePhase_Sound now (mkWorld (state w) _ _ _)).
  - destruct (take t (pending w)) as [rest |]; [| discriminate].
    destruct t as [| | k | due]; cbn [runTask] in H.
    + inversion H; subst. unfold armAlarms. cbn [state].
      destruct (running (state w)); exact Hs.
    + inversion H; subst.
      now apply (startNextPhase_Sound _ _ (mkWorld (state w) _ _ _)).
    + cbn [store state alarms pending] in H.
      destruct (incrementStat k (store w)); inversion H; subst; [| exact Hs].
      now apply (completePhase_Sound now (mkWorld (state w) _ _ _)).
    + destruct (due <=? now); inversion H; subst; exact Hs.
Qed.

Lemma run_Sound {tz : TimeZone} es : forall w w',
  Sound (state w) -> run es w = Some w' -> Sound (state w').
Proof.
  induction es as [| e es IH]; intros w w' Hw H; cbn [run] in H.
  - inversion H; subst; exact Hw.
  - destruct (handle e w) as [w1 |] eqn:E; [| discriminate].
    eapply IH; [| exact H]. eapply handle_Sound; eassumption.
Qed.

Lemma reachable_Sound {tz : TimeZone} es w :
  run es initial_world = Some w -> Sound (state w).
Proof. apply run_Sound. exact idle_Sound. Qed.

End InvariantFacts.

(* ===================================================================== *)
(** * Settings and statistics in storage                                  *)
(* ===================================================================== *)

Module StorageFacts.

Import Calendar CalendarFacts Worker Invariants.

(** X1. Saving settings overwrites exactly the keys that are given: the
    settings read afterwards are the ones read before with the given keys
    replaced, and the statistics and the streak are not touched. *)
Theorem getSettings_saveSettings (newSettings : StoredSettings) (st : Storage) :
  getSettings (saveSettings newSettings st)
  = assign (getSettings st) newSettings
  /\ getStats (saveSettings newSettings st) = getStats st
  /\ streak (saveSettings newSettings st) = streak st
  /\ lastStreakDate (saveSettings newSettings st) = lastStreakDate st.
Proof.
  split; [| repeat split].
  unfold getSettings, saveSettings, assign, assign_stored. cbn.
  destruct newSettings as [a b c d e]. cbn.
  f_equal; match goal with
           | |- context [match ?x with _ => _ end] => now destruct x
           end.
Qed.

(** The ledger after [incrementStat], whether it returns or throws. *)
Lemma incrementStat_ledger {tz : TimeZone} k st :
  getStats (storage_of (incrementStat k st))
  = <[k := JS.or_zero (getStats st !! k) + 1]> (getStats st).
Proof.
  unfold incrementStat.
  destruct (JS.truthy (lastStreakDate st)); [destruct (parseDate k) |];
    reflexivity.
Qed.

Lemma incrementStat_settings {tz : TimeZone} k st :
  settings (storage_of (incrementStat k st)) = settings st.
Proof.
  unfold incrementStat.
  destruct (JS.truthy (lastStreakDate st)); [destruct (parseDate k) |];
    reflexivity.
Qed.

(** A completion on a day with a four-digit year is recorded without an
    exception. *)
Lemma incrementStat_returns {tz : TimeZone} now st :
  minDay <= day_of now <= maxDay ->
  exists st', incrementStat (isoDate now) st = Returned st'.
Proof.
  intros Hd. unfold incrementStat, isoDate.
  rewrite (parseDate_dayKey _ Hd).
  destruct (JS.truthy (lastStreakDate st)); eauto.
Qed.








(** X2. After the statistics are cleared the summary is all zeros, at any
    time and whatever was stored before. *)
Theorem clearStats_summary {tz : TimeZone} (now : Z) (st : Storage) :
  computeStatsSummary now (clearStats st) = mkSummary 0 0 0.
Proof.
  unfold computeStatsSummary, clearStats, getStats. cbn [stats streak default].
  change (seqZ 0 7) with [0; 1; 2; 3; 4; 5; 6]. cbn [fold_left].
  now rewrite !lookup_empty.
Qed.





End StorageFacts.

(* ===================================================================== *)
(** * More on the timer                                                   *)
(* ===================================================================== *)

Module TimerMore.

Import Calendar Worker Invariants InvariantFacts.

(** X6. A pause at [t1] followed by a resume at [t2] moves the end of a
    running phase to [t2] plus what was left at [t1]; when the end had not
    passed at [t1], that is the old end postponed by the length of the
    pause. *)
Theorem pause_resume_shifts_end t1 t2 w e :
  running (state w) = true ->
  endTime (state w) = Some e ->
  let s' := state (resumeTimer t2 (pauseTimer t1 w)) in
  running s' = true
  /\ startTime s' = Some t2
  /\ endTime s' = Some (t2 + Z.max (e - t1) 0)
  /\ (t1 <= e -> endTime s' = Some (e + (t2 - t1)))
  /\ phase s' = phase (state w) /\ cycleCount s' = cycleCount (state w).
Proof.
  intros Hr He s'. subst s'. unfold resumeTimer, pauseTimer.
  rewrite Hr, He. cbn. repeat split. intros Hle. f_equal. lia.
Qed.

Lemma pause_resume_shifts_end_witness :
  let w := mkWorld (mkState "work" true (Some 0) (Some 1500000) None 0)
                   ∅ [] empty_storage in
  (running (state w) = true /\ endTime (state w) = Some 1500000
   /\ 600000 <= 1500000)
  /\ endTime (state (resumeTimer 900000 (pauseTimer 600000 w)))
     = Some (1500000 + (900000 - 600000)).
Proof.
  cbv zeta. split; [repeat split; lia |].
  refine (proj1 (proj2 (proj2 (proj2 (pause_resume_shifts_end 600000 900000
    (mkWorld (mkState "work" true (Some 0) (Some 1500000) None 0)
             ∅ [] empty_storage) 1500000 eq_refl eq_refl)))) _).
  lia.
Defined.

(** X7. A second pause, or a second resume, changes nothing: the world after
    two of them in a row is the world after the first. *)
Theorem pause_resume_idempotent t1 t2 w :
  pauseTimer t2 (pauseTimer t1 w) = pauseTimer t1 w
  /\ resumeTimer t2 (resumeTimer t1 w) = resumeTimer t1 w.
Proof.
  split.
  - unfold pauseTimer. destruct (running (state w)) eqn:E; cbn; [reflexivity |].
    now rewrite E.
  - unfold resumeTimer. destruct (running (state w)) eqn:E.
    + now rewrite E.
    + destruct (remainingTime (state w)) eqn:Er; cbn; [reflexivity |].
      now rewrite E, Er.
Qed.

(** X8. Whatever events the worker has seen, the phase is one of the four
    known values, so start() never takes its defensive reset branch: it
    always sets the timer running. *)
Theorem reachable_phase {tz : TimeZone} es w settings now :
  run es initial_world = Some w ->
  (phase (state w) = "idle" \/ phase (state w) = "work"
   \/ phase (state w) = "short_break" \/ phase (state w) = "long_break")
  /\ running (state (startNextPhase settings now w)) = true
  /\ startTime (state (startNextPhase settings now w)) = Some now.
Proof.
  intros Hrun. destruct (reachable_Sound es w Hrun) as [Hp _ _ _].
  unfold active in Hp.
  split; [tauto |].
  unfold startNextPhase.
  destruct Hp as [E | [E | [E | E]]]; rewrite E;
    cbn [String.eqb Ascii.eqb Bool.eqb orb];
    try destruct (JS.rem_is_zero _ _); split; reflexivity.
Qed.

Lemma reachable_phase_witness :
  let es := [MsgStart; Run AwaitSettings 0; Run ArmAlarms 1; MsgPause 60000] in
  exists w,
    run (tz := utc) es initial_world = Some w
    /\ phase (state w) = "work"
    /\ running (state (startNextPhase DEFAULT_SETTINGS 70000 w)) = true.
Proof.
  cbv zeta.
  destruct (run (tz := utc)
              [MsgStart; Run AwaitSettings 0; Run ArmAlarms 1; MsgPause 60000]
                initial_world) as [w |] eqn:E; [| vm_compute in E; discriminate].
  exists w. split; [reflexivity |].
  split; [vm_compute in E; now inversion E |].
  exact (proj1 (proj2 (reachable_phase _ w DEFAULT_SETTINGS 70000 E))).
Defined.

(** X9. Whatever events the worker has seen, running and a remaining time
    never go together: a running state has an end time, no remaining time and
    is not idle; a state with a remaining time is not running and not
    idle. *)
Theorem reachable_running_or_paused {tz : TimeZone} es w :
  run es initial_world = Some w ->
  (running (state w) = true ->
     is_Some (endTime (state w)) /\ remainingTime (state w) = None
     /\ phase (state w) <> "idle")
  /\ (is_Some (remainingTime (state w)) ->
      running (state w) = false /\ phase (state w) <> "idle").
Proof.
  intros Hrun. destruct (reachable_Sound es w Hrun) as [_ Hr Hrem _].
  assert (Hact : forall ph, active ph -> ph <> "idle")
    by (intros ph [-> | [-> | ->]]; discriminate).
  split.
  - intros E. destruct (Hr E) as (Ha & He & Hn). auto.
  - intros [r Er]. destruct (Hrem r Er) as [_ Ha]. split; [| auto].
    destruct (running (state w)) eqn:E; [| reflexivity].
    destruct (Hr eq_refl) as (_ & _ & Hn). congruence.
Qed.

Lemma reachable_running_or_paused_witness :
  let es := [MsgStart; Run AwaitSettings 0; Run ArmAlarms 1; MsgPause 60000] in
  exists w,
    run (tz := utc) es initial_world = Some w
    /\ is_Some (remainingTime (state w))
    /\ running (state w) = false /\ phase (state w) <> "idle".
Proof.
  cbv zeta.
  destruct (run (tz := utc)
              [MsgStart; Run AwaitSettings 0; Run ArmAlarms 1; MsgPause 60000]
                initial_world) as [w |] eqn:E; [| vm_compute in E; discriminate].
  exists w. split; [reflexivity |].
  assert (Hs : is_Some (remainingTime (state w)))
    by (vm_compute in E; inversion E; cbn; eauto).
  split; [exact Hs |].
  exact (proj2 (reachable_running_or_paused _ w E) Hs).
Defined.

(** X10. Whatever events the worker has seen, cycleCount and a stored
    remaining time are never negative, and the time left that the badge
    shows is never negative. *)
Theorem reachable_nonnegative {tz : TimeZone} es w now :
  run es initial_world = Some w ->
  0 <= cycleCount (state w)
  /\ 0 <= JS.num (remainingTime (state w))
  /\ 0 <= msLeft now (state w).
Proof.
  intros Hrun. destruct (reachable_Sound es w Hrun) as [_ _ Hrem Hc].
  assert (H0 : 0 <= JS.num (remainingTime (state w))).
  { destruct (remainingTime (state w)) as [r |] eqn:Er; cbn; [| lia].
    now destruct (Hrem r eq_refl). }
  split; [exact Hc |]. split; [exact H0 |].
  unfold msLeft. destruct (running (state w)); [lia | exact H0].
Qed.

Lemma reachable_nonnegative_witness :
  let es := [MsgStart; Run AwaitSettings 0; Run ArmAlarms 1; MsgPause 1600000] in
  exists w,
    run (tz := utc) es initial_world = Some w
    /\ 0 <= cycleCount (state w)
    /\ 0 <= JS.num (remainingTime (state w))
    /\ 0 <= msLeft 1700000 (state w).
Proof.
  cbv zeta.
  destruct (run (tz := utc) [MsgStart; Run AwaitSettings 0; Run ArmAlarms 1;
                 MsgPause 1600000] initial_world)
    as [w |] eqn:E; [| vm_compute in E; discriminate].
  exists w. split; [reflexivity |].
  exact (reachable_nonnegative _ w 1700000 E).
Defined.

Lemma after_snoc cs c w : after (cs ++ [c]) w = call c (after cs w).
Proof. unfold after. now rewrite fold_left_app. Qed.

(** After an even number of starts from idle the timer is in a break (or
    still idle), after an odd number in Work; the count of cycles is half
    the number of starts. *)
Lemma starts_rhythm n cs :
  Forall (start_with n) cs ->
  exists j : nat,
    cycleCount (state (after cs initial_world)) = Z.of_nat j
    /\ ((length cs = (2 * j)%nat
         /\ phase (state (after cs initial_world))
            = (if Nat.eqb j 0 then "idle"
               else if JS.rem_is_zero (Z.of_nat j) n then "long_break"
               else "short_break"))
        \/ (length cs = (2 * j + 1)%nat
            /\ phase (state (after cs initial_world)) = "work")).
Proof.
  induction cs as [| c cs IH] using rev_ind; intros Hall.
  - exists 0%nat. split; [reflexivity |]. left. split; reflexivity.
  - apply Forall_app in Hall. destruct Hall as [Hcs Hc].
    apply Forall_cons in Hc. destruct Hc as [Hc _].
    destruct c as [settings now | |]; cbn [start_with] in Hc; try contradiction.
    destruct (IH Hcs) as (j & Hcc & [[Hlen Hph] | [Hlen Hph]]);
      rewrite after_snoc, length_app; cbn [length call].
    + exists j. rewrite TimerFacts.startNextPhase_to_work.
      * split; [exact Hcc |]. right. split; [lia | reflexivity].
      * rewrite Hph. destruct (Nat.eqb j 0); [now left |].
        destruct (JS.rem_is_zero _ _); auto.
    + exists (S j). rewrite (TimerFacts.startNextPhase_from_work _ _ _ Hph).
      rewrite Hcc, Hc.
      replace (Z.of_nat j + 1) with (Z.of_nat (S j)) by lia.
      destruct (JS.rem_is_zero (Z.of_nat (S j)) n) eqn:E; cbn;
        (split; [reflexivity |]; left; split; [lia | now rewrite ?E]).
Qed.

(** X11. The rhythm of breaks: after 2k calls of start() from the initial
    state (k at least 1, every call reading the long-break interval n) the
    timer has counted k cycles and is in a LongBreak exactly when n divides
    k, otherwise in a ShortBreak; one more start() leads back to Work. *)
Theorem break_rhythm n cs (k : nat) settings now :
  Forall (start_with n) cs ->
  length cs = (2 * k)%nat ->
  (1 <= k)%nat ->
  let s := state (after cs initial_world) in
  cycleCount s = Z.of_nat k
  /\ (phase s = "long_break" <-> (n | Z.of_nat k))
  /\ (phase s = "short_break" <-> ~ (n | Z.of_nat k))
  /\ phase (state (startNextPhase settings now (after cs initial_world)))
     = "work".
Proof.
  intros Hall Hlen Hk s. subst s.
  destruct (starts_rhythm n cs Hall) as (j & Hcc & [[Hl Hph] | [Hl _]]);
    [| lia].
  assert (j = k) by lia. subst j.
  assert (Hpos : 0 < Z.of_nat k) by lia.
  destruct (Nat.eqb_spec k 0) as [-> | _]; [lia |].
  split; [exact Hcc |].
  destruct (JS.rem_is_zero (Z.of_nat k) n) eqn:E; rewrite Hph.
  - apply (TimerFacts.rem_is_zero_divide _ _ Hpos) in E.
    split; [tauto |]. split; [split; [discriminate | tauto] |].
    rewrite TimerFacts.startNextPhase_to_work by (rewrite Hph; auto).
    reflexivity.
  - apply (TimerFacts.rem_is_zero_not_divide _ _ Hpos) in E.
    split; [split; [discriminate | tauto] |]. split; [tauto |].
    rewrite TimerFacts.startNextPhase_to_work by (rewrite Hph; auto).
    reflexivity.
Qed.

Lemma break_rhythm_witness :
  let cs := repeat (Start DEFAULT_SETTINGS 0) 8 in
  (Forall (start_with 4) cs /\ length cs = (2 * 4)%nat /\ (1 <= 4)%nat)
  /\ cycleCount (state (after cs initial_world)) = 4
  /\ phase (state (after cs initial_world)) = "long_break".
Proof.
  cbv zeta.
  assert (Hall : Forall (start_with 4) (repeat (Start DEFAULT_SETTINGS 0) 8))
    by (repeat constructor).
  split; [split; [exact Hall | split; [reflexivity | lia]] |].
  destruct (break_rhythm 4 (repeat (Start DEFAULT_SETTINGS 0) 8) 4
              DEFAULT_SETTINGS 0 Hall eq_refl) as (Hc & Hl & _); [lia |].
  split; [exact Hc |]. apply Hl. exists 1. reflexivity.
Defined.

End TimerMore.

(* ===================================================================== *)
(** * More on alarms and phase completion                                 *)
(* ===================================================================== *)

Module EventLoopMore.

Import Calendar CalendarFacts Worker EventLoopFacts StorageFacts.

Lemma take_last t l : exists rest, take t (l ++ [t]) = Some rest.
Proof. apply take_In, in_or_app. right. now left. Qed.

(** X12. When the timer has been set running, [scheduleAlarms] and its
    callback leave exactly two alarms, whatever was registered before:
    [timerEnd] at the end time of the state and [updateBadge] one second
    after the callback, repeating every minute. *)
Theorem scheduleAlarms_arms {tz : TimeZone} w t e :
  running (state w) = true ->
  endTime (state w) = Some e ->
  exists w',
    handle (Run ArmAlarms t) (scheduleAlarms w) = Some w'
    /\ state w' = state w
    /\ alarms w'
       = <["updateBadge" := mkAlarm (t + 1000) (Some 1)]>
           (<["timerEnd" := mkAlarm e None]> ∅).
Proof.
  intros Hr He. unfold scheduleAlarms. cbn [handle pending].
  destruct (take_last ArmAlarms (pending w)) as [rest ->].
  cbn [runTask state alarms store]. unfold armAlarms. cbn [state alarms].
  rewrite Hr, He.
  eexists. split; [reflexivity |]. split; reflexivity.
Qed.

Lemma scheduleAlarms_arms_witness :
  let w := mkWorld (mkState "work" true (Some 0) (Some 1500000) None 0)
                   (<["stale" := mkAlarm 5 None]> ∅) [] empty_storage in
  (running (state w) = true /\ endTime (state w) = Some 1500000)
  /\ exists w',
    handle (tz := utc) (Run ArmAlarms 7) (scheduleAlarms w) = Some w'
    /\ state w' = state w
    /\ alarms w'
       = <["updateBadge" := mkAlarm (7 + 1000) (Some 1)]>
           (<["timerEnd" := mkAlarm 1500000 None]> ∅).
Proof.
  cbv zeta. split; [split; reflexivity |].
  exact (scheduleAlarms_arms
           (mkWorld (mkState "work" true (Some 0) (Some 1500000) None 0)
                    (<["stale" := mkAlarm 5 None]> ∅) [] empty_storage)
           7 1500000 eq_refl eq_refl).
Defined.

(** X13. A pause that arrives while the callback of [scheduleAlarms] is
    still waiting leaves no alarm behind: the callback finds the timer
    stopped and registers nothing. *)
Theorem pause_before_callback {tz : TimeZone} w t t' :
  In ArmAlarms (pending w) ->
  running (state w) = true ->
  exists w',
    handle (Run ArmAlarms t') (pauseTimer t w) = Some w'
    /\ alarms w' = ∅
    /\ state w' = state (pauseTimer t w).
Proof.
  intros Hin Hr. unfold pauseTimer. rewrite Hr. cbn [negb handle pending].
  destruct (take_In _ _ Hin) as [rest ->]. cbn.
  eexists. split; [reflexivity |]. split; reflexivity.
Qed.

Lemma pause_before_callback_witness :
  let w := startNextPhase DEFAULT_SETTINGS 0 initial_world in
  (In ArmAlarms (pending w) /\ running (state w) = true)
  /\ exists w',
    handle (tz := utc) (Run ArmAlarms 20) (pauseTimer 10 w) = Some w'
    /\ alarms w' = ∅
    /\ state w' = state (pauseTimer 10 w).
Proof.
  cbv zeta. split; [split; [left; reflexivity | reflexivity] |].
  apply pause_before_callback; [left; reflexivity | reflexivity].
Defined.

(** X14. The end of a break: when the [timerEnd] alarm goes off in a
    ShortBreak or LongBreak, the phase is marked complete at once, and when
    the half second has passed and the settings are read a Work phase of
    full length begins; cycleCount and the storage are as before and the
    alarms are cleared for the new phase. *)
Theorem break_end_starts_work {tz : TimeZone} w a t t2 t3 :
  alarms w !! "timerEnd" = Some a ->
  when a <= t ->
  phase (state w) = "short_break" \/ phase (state w) = "long_break" ->
  t + 500 <= t2 ->
  exists w1 w',
    handle (AlarmFires "timerEnd" t) w = Some w1
    /\ running (state w1) = false /\ remainingTime (state w1) = None
    /\ phase (state w1) = phase (state w)
    /\ run [Run (AutoStart (t + 500)) t2; Run AwaitSettings t3] w1 = Some w'
    /\ state w'
       = mkState "work" true (Some t3)
           (Some (t3 + workDuration (getSettings (store w)) * 60 * 1000))
           None (cycleCount (state w))
    /\ alarms w' = ∅
    /\ store w' = store w.
Proof.
  intros Ha Hdue Hph Ht2.
  assert (Hnw : String.eqb (phase (state w)) "work" = false)
    by (destruct Hph as [-> | ->]; reflexivity).
  destruct (take_last (AutoStart (t + 500)) (pending w)) as [rest Hrest].
  destruct (take_last AwaitSettings rest) as [rest' Hrest'].
  cbn [handle]. rewrite Ha.
  replace (when a <=? t) with true by (symmetry; now apply Z.leb_le).
  unfold onAlarm. cbn [String.eqb Ascii.eqb Bool.eqb state]. rewrite Hnw.
  eexists _, _. split; [reflexivity |].
  do 3 (split; [reflexivity |]).
  unfold completePhase. cbn [run handle pending state alarms store].
  rewrite Hrest. cbn [runTask state alarms pending store].
  replace (t + 500 <=? t2) with true by (symmetry; now apply Z.leb_le).
  cbn [handle pending]. rewrite Hrest'.
  cbn [runTask state alarms pending store].
  split; [reflexivity |].
  rewrite TimerFacts.startNextPhase_to_work by (cbn; tauto).
  repeat split.
Qed.

Lemma break_end_starts_work_witness :
  let w := mkWorld (mkState "short_break" true (Some 0) (Some 300000) None 1)
                   (<["timerEnd" := mkAlarm 300000 None]> ∅) []
                   empty_storage in
  (alarms w !! "timerEnd" = Some (mkAlarm 300000 None)
   /\ when (mkAlarm 300000 None) <= 300001
   /\ phase (state w) = "short_break" /\ 300001 + 500 <= 300600)
  /\ exists w1 w',
    handle (tz := utc) (AlarmFires "timerEnd" 300001) w = Some w1
    /\ run (tz := utc)
          [Run (AutoStart (300001 + 500)) 300600; Run AwaitSettings 300700] w1
       = Some w'
    /\ phase (state w') = "work" /\ running (state w') = true.
Proof.
  cbv zeta. split; [repeat split; cbn; lia |].
  destruct (break_end_starts_work (tz := utc)
    (mkWorld (mkState "short_break" true (Some 0) (Some 300000) None 1)
             (<["timerEnd" := mkAlarm 300000 None]> ∅) [] empty_storage)
    (mkAlarm 300000 None) 300001 300600 300700)
    as (w1 & w' & H1 & _ & _ & _ & H2 & H3 & _);
    [reflexivity | cbn; lia | now left | lia |].
  exists w1, w'. split; [exact H1 |]. split; [exact H2 |].
  rewrite H3. split; reflexivity.
Defined.

(** X15. The end of a Work phase: when the [timerEnd] alarm goes off in
    Work (on a day with a four-digit year), the completion is first counted
    under the date key of that moment, then the phase is marked complete;
    half a second later the next start counts the cycle and begins a break,
    reading the settings from the storage. *)
Theorem work_end_counts_and_starts_break {tz : TimeZone} w a t t1 t2 t3 :
  alarms w !! "timerEnd" = Some a ->
  when a <= t ->
  phase (state w) = "work" ->
  minDay <= day_of t <= maxDay ->
  t1 + 500 <= t2 ->
  exists st' w',
    incrementStat (isoDate t) (store w) = Returned st'
    /\ run [AlarmFires "timerEnd" t; Run (AwaitStat (isoDate t)) t1;
            Run (AutoStart (t1 + 500)) t2; Run AwaitSettings t3] w = Some w'
    /\ store w' = st'
    /\ getStats st' !! isoDate t
       = Some (JS.or_zero (getStats (store w) !! isoDate t) + 1)
    /\ cycleCount (state w') = cycleCount (state w) + 1
    /\ running (state w') = true
    /\ startTime (state w') = Some t3
    /\ remainingTime (state w') = None
    /\ (phase (state w') = "long_break" \/ phase (state w') = "short_break").
Proof.
  intros Ha Hdue Hph Hday Ht2.
  destruct (incrementStat_returns t (store w) Hday) as [st' Hst].
  exists st'. cbn [run handle]. rewrite Ha.
  replace (when a <=? t) with true by (symmetry; now apply Z.leb_le).
  unfold onAlarm. cbn [String.eqb Ascii.eqb Bool.eqb state]. rewrite Hph.
  cbn [String.eqb Ascii.eqb Bool.eqb handle pending].
  destruct (take_last (AwaitStat (isoDate t)) (pending w)) as [rest ->].
  cbn [runTask state alarms pending store]. rewrite Hst.
  unfold completePhase. cbn [handle state alarms pending store].
  destruct (take_last (AutoStart (t1 + 500)) rest) as [rest' ->].
  cbn [runTask state alarms pending store].
  replace (t1 + 500 <=? t2) with true by (symmetry; now apply Z.leb_le).
  cbn [handle pending].
  destruct (take_last AwaitSettings rest') as [rest'' ->].
  cbn [runTask state alarms pending store].
  eexists. split; [reflexivity |]. split; [reflexivity |].
  assert (Hledger : getStats st' !! isoDate t
                    = Some (JS.or_zero (getStats (store w) !! isoDate t) + 1)).
  { pose proof (incrementStat_ledger (isoDate t) (store w)) as Hl.
    rewrite Hst in Hl. cbn [storage_of] in Hl.
    now rewrite Hl, lookup_insert_eq. }
  rewrite TimerFacts.startNextPhase_from_work by (cbn; exact Hph).
  cbn [state cycleCount].
  destruct (JS.rem_is_zero _ _); cbn; repeat split; auto.
Qed.

Lemma work_end_counts_and_starts_break_witness :
  let w := mkWorld (mkState "work" true (Some 0) (Some 1500000) None 3)
                   (<["timerEnd" := mkAlarm 1500000 None]> ∅) []
                   empty_storage in
  (alarms w !! "timerEnd" = Some (mkAlarm 1500000 None)
   /\ when (mkAlarm 1500000 None) <= 1500000
   /\ phase (state w) = "work"
   /\ minDay <= day_of 1500000 <= maxDay /\ 1500001 + 500 <= 1500600)
  /\ exists w',
    run (tz := utc)
        [AlarmFires "timerEnd" 1500000;
         Run (AwaitStat (isoDate 1500000)) 1500001;
         Run (AutoStart (1500001 + 500)) 1500600; Run AwaitSettings 1500700] w
    = Some w'
    /\ cycleCount (state w') = 4
    /\ running (state w') = true.
Proof.
  cbv zeta.
  assert (Hday : minDay <= day_of 1500000 <= maxDay)
    by (vm_compute; split; discriminate).
  split; [repeat split; try (cbn; lia); apply Hday |].
  destruct (work_end_counts_and_starts_break (tz := utc)
    (mkWorld (mkState "work" true (Some 0) (Some 1500000) None 3)
             (<["timerEnd" := mkAlarm 1500000 None]> ∅) [] empty_storage)
    (mkAlarm 1500000 None) 1500000 1500001 1500600 1500700)
    as (st' & w' & _ & Hrun & _ & _ & Hc & Hr & _);
    [reflexivity | cbn; lia | reflexivity | exact Hday | lia |].
  exists w'. split; [exact Hrun |]. split; [exact Hc | exact Hr].
Defined.

End EventLoopMore.

(* ===================================================================== *)
(** * What is shown: the badge and the popup                              *)
(* ===================================================================== *)

Module DisplayFacts.

Import Calendar Worker Invariants InvariantFacts.

Lemma ceil_div_spec a b :
  0 < b -> b * (JS.ceil_div a b - 1) < a <= b * JS.ceil_div a b.
Proof. intros Hb. unfold JS.ceil_div. Z.div_mod_to_equations; nia. Qed.

(** X16. On a state that is running or paused and not idle the badge shows
    the minutes left rounded up: the least number of whole minutes that
    covers the time left, in red during Work and in green during a break. *)
Theorem badge_minutes now s :
  phase s <> "idle" ->
  running s = true \/ is_Some (remainingTime s) ->
  exists m,
    updateBadge now s
    = BadgeMinutes m (if String.eqb (phase s) "work" then "#E53935"
                      else "#43A047")
    /\ 60000 * (m - 1) < msLeft now s <= 60000 * m.
Proof.
  intros Hi Hrp. unfold updateBadge.
  apply String.eqb_neq in Hi. rewrite Hi.
  assert (Hc : negb (running s) && negb (bool_decide (is_Some (remainingTime s)))
               = false).
  { destruct Hrp as [-> | Hs]; [reflexivity |].
    rewrite (bool_decide_eq_true_2 _ Hs). now destruct (running s). }
  rewrite Hc. eexists. split; [reflexivity |].
  apply ceil_div_spec. lia.
Qed.

Lemma badge_minutes_witness :
  let s := mkState "work" true (Some 0) (Some 1500000) None 0 in
  (phase s <> "idle" /\ running s = true)
  /\ exists m,
    updateBadge 60001 s = BadgeMinutes m "#E53935"
    /\ 60000 * (m - 1) < msLeft 60001 s <= 60000 * m.
Proof.
  cbv zeta. split; [split; [discriminate | reflexivity] |].
  apply (badge_minutes 60001 (mkState "work" true (Some 0) (Some 1500000) None 0));
    [discriminate | now left].
Defined.

(** X17. The badge is empty exactly when the phase is idle, and it shows the
    check mark exactly on a state that is not idle, not running and without
    a remaining time, which is the state the alarm listener leaves when a
    phase has just completed. *)
Theorem badge_kinds now s :
  (updateBadge now s = BadgeEmpty <-> phase s = "idle")
  /\ (updateBadge now s = BadgeCheck <->
      phase s <> "idle" /\ running s = false /\ remainingTime s = None)
  /\ (phase s <> "idle" ->
      forall t w, state w = s ->
        updateBadge now (state (completePhase t w)) = BadgeCheck).
Proof.
  unfold updateBadge.
  destruct (String.eqb_spec (phase s) "idle") as [Hi | Hi].
  - split; [tauto |]. split; [| tauto]. split; [discriminate | tauto].
  - split; [split; [| tauto] |].
    + destruct (negb (running s) && _); discriminate.
    + split.
      * destruct (running s); cbn [negb andb].
        -- split; [discriminate | intros (_ & E & _); discriminate].
        -- destruct (remainingTime s) as [r |]; cbn.
           ++ split; [discriminate | intros (_ & _ & E); discriminate].
           ++ tauto.
      * intros _ t w <-. cbn.
        apply String.eqb_neq in Hi. now rewrite Hi.
Qed.

Lemma badge_kinds_witness :
  let w := mkWorld (mkState "work" true (Some 0) (Some 1500000) None 0)
                   ∅ [] empty_storage in
  phase (state w) <> "idle"
  /\ updateBadge 1500001 (state (completePhase 1500000 w)) = BadgeCheck.
Proof.
  cbv zeta. split; [discriminate |].
  assert (Hne : phase (mkState "work" true (Some 0) (Some 1500000) None 0)
                <> "idle") by discriminate.
  exact (proj2 (proj2 (badge_kinds 1500001
           (mkState "work" true (Some 0) (Some 1500000) None 0))) Hne
           1500000
           (mkWorld (mkState "work" true (Some 0) (Some 1500000) None 0)
                    ∅ [] empty_storage) eq_refl).
Defined.

(** Decimal notation padded to two places, for the numbers below 100. *)
Lemma padStart_pretty_table :
  forallb (fun n => String.eqb (Popup.padStart 2 "0" (pretty n))
                               (Calendar.pad2 n))
          (seqZ 0 100) = true.
Proof. vm_compute. reflexivity. Qed.

Lemma padStart_pretty n :
  0 <= n <= 99 -> Popup.padStart 2 "0" (pretty n) = Calendar.pad2 n.
Proof.
  intros Hn. apply String.eqb_eq.
  pose proof padStart_pretty_table as Ht.
  rewrite forallb_forall in Ht. apply Ht.
  apply list_elem_of_In, elem_of_seqZ. lia.
Qed.

Lemma totalSeconds_clamp ms :
  Z.max (JS.ceil_div ms 1000) 0 = Z.max (JS.ceil_div (Z.max ms 0) 1000) 0.
Proof. unfold JS.ceil_div. Z.div_mod_to_equations; lia. Qed.

(** X18. [formatTime] never shows a negative time: a time that is zero or
    negative is shown as 00:00, and any time is shown as its positive part
    is. *)
Theorem formatTime_clamps ms :
  Popup.formatTime ms = Popup.formatTime (Z.max ms 0)
  /\ (ms <= 0 -> Popup.formatTime ms = "00:00").
Proof.
  split.
  - unfold Popup.formatTime. now rewrite totalSeconds_clamp.
  - intros Hle. unfold Popup.formatTime.
    replace (Z.max (JS.ceil_div ms 1000) 0) with 0
      by (unfold JS.ceil_div; Z.div_mod_to_equations; lia).
    reflexivity.
Qed.

Lemma formatTime_clamps_witness :
  -1500 <= 0 /\ Popup.formatTime (-1500) = "00:00".
Proof.
  split; [lia |]. apply (proj2 (formatTime_clamps (-1500))). lia.
Defined.

(** X19. Up to 99:59 [formatTime] shows MM:SS: the seconds left, rounded up
    to a whole second, as two digits of minutes, a colon and two digits of
    seconds below 60. *)
Theorem formatTime_mm_ss ms :
  0 <= ms <= 5999000 ->
  let totalSeconds := JS.ceil_div ms 1000 in
  Popup.formatTime ms
  = Calendar.pad2 (totalSeconds / 60) ++ ":"
      ++ Calendar.pad2 (totalSeconds mod 60)
  /\ 1000 * (totalSeconds - 1) < ms <= 1000 * totalSeconds
  /\ 0 <= totalSeconds / 60 <= 99 /\ 0 <= totalSeconds mod 60 <= 59.
Proof.
  intros Hms ts. subst ts.
  pose proof (ceil_div_spec ms 1000 ltac:(lia)) as Hc.
  set (ts := JS.ceil_div ms 1000) in *.
  assert (Hts : 0 <= ts <= 5999) by lia.
  assert (Hm : 0 <= ts / 60 <= 99) by (Z.div_mod_to_equations; lia).
  assert (Hs : 0 <= ts mod 60 <= 59) by (Z.div_mod_to_equations; lia).
  split; [| split; [lia | split; assumption]].
  unfold Popup.formatTime. fold ts.
  replace (Z.max ts 0) with ts by lia.
  rewrite Z.rem_mod_nonneg by lia.
  rewrite !padStart_pretty by lia. reflexivity.
Qed.

Lemma formatTime_mm_ss_witness :
  0 <= 1439001 <= 5999000 /\ Popup.formatTime 1439001 = "24:00".
Proof.
  split; [lia |].
  etransitivity;
    [exact (proj1 (formatTime_mm_ss 1439001 ltac:(lia))) | reflexivity].
Defined.

(** X20. The badge and the popup agree: whatever events the worker has
    seen, on a state that is running or paused the minutes on the badge are
    the seconds the popup shows, rounded up to whole minutes. *)
Theorem badge_agrees_with_popup {tz : TimeZone} es w now :
  run es initial_world = Some w ->
  running (state w) = true \/ is_Some (remainingTime (state w)) ->
  let totalSeconds :=
    Z.max (JS.ceil_div (Popup.msLeft now (state w)) 1000) 0 in
  updateBadge now (state w)
  = BadgeMinutes (JS.ceil_div totalSeconds 60)
      (if String.eqb (phase (state w)) "work" then "#E53935" else "#43A047").
Proof.
  intros Hrun Hrp ts. subst ts.
  destruct (reachable_Sound es w Hrun) as [_ Hr Hrem _].
  assert (Hact : forall ph, active ph -> ph <> "idle")
    by (intros ph [-> | [-> | ->]]; discriminate).
  assert (Hi : phase (state w) <> "idle").
  { destruct Hrp as [E | [r Er]].
    - destruct (Hr E) as (Ha & _). auto.
    - destruct (Hrem r Er) as (_ & Ha). auto. }
  destruct (badge_minutes now (state w) Hi Hrp) as (m & Hb & Hm).
  rewrite Hb. f_equal.
  assert (Hleft : msLeft now (state w) = Z.max (Popup.msLeft now (state w)) 0).
  { unfold msLeft, Popup.msLeft. destruct (running (state w)); [reflexivity |].
    destruct (remainingTime (state w)) as [r |] eqn:Er; cbn; [| lia].
    destruct (Hrem r eq_refl). lia. }
  rewrite Hleft in Hm. revert Hm. generalize (Popup.msLeft now (state w)).
  intros x Hm. unfold JS.ceil_div. Z.div_mod_to_equations; lia.
Qed.

Lemma badge_agrees_with_popup_witness :
  let es := [MsgStart; Run AwaitSettings 0; Run ArmAlarms 1; MsgPause 61500] in
  exists w,
    run (tz := utc) es initial_world = Some w
    /\ is_Some (remainingTime (state w))
    /\ updateBadge 70000 (state w)
       = BadgeMinutes
           (JS.ceil_div
              (Z.max (JS.ceil_div (Popup.msLeft 70000 (state w)) 1000) 0) 60)
           (if String.eqb (phase (state w)) "work" then "#E53935"
            else "#43A047").
Proof.
  cbv zeta.
  destruct (run (tz := utc)
              [MsgStart; Run AwaitSettings 0; Run ArmAlarms 1; MsgPause 61500]
                initial_world) as [w |] eqn:E; [| vm_compute in E; discriminate].
  exists w. split; [reflexivity |].
  assert (Hs : is_Some (remainingTime (state w)))
    by (vm_compute in E; inversion E; cbn; eauto).
  split; [exact Hs |].
  exact (badge_agrees_with_popup _ w 70000 E (or_intror Hs)).
Defined.

(** X21. The popup always offers exactly one of Start, Pause and Resume:
    Start exactly when the phase is idle, Pause exactly when a phase is
    running, Resume otherwise; Reset is offered exactly when the phase is
    not idle. *)
Theorem buttons_offered s :
  let b := Popup.buttons s in
  exactly_one (negb (Popup.startHidden b)) (negb (Popup.pauseHidden b))
              (negb (Popup.resumeHidden b)) = true
  /\ (Popup.startHidden b = false <-> phase s = "idle")
  /\ (Popup.pauseHidden b = false <-> phase s <> "idle" /\ running s = true)
  /\ (Popup.resumeHidden b = false <-> phase s <> "idle" /\ running s = false)
  /\ (Popup.resetHidden b = false <-> phase s <> "idle").
Proof.
  cbv zeta. unfold Popup.buttons.
  destruct (String.eqb_spec (phase s) "idle") as [Hi | Hi];
    [| destruct (running s)]; cbn;
    repeat split; try tauto; try discriminate;
    try (intros (? & ?); congruence); try (intros; congruence).
Qed.

Lemma buttons_offered_witness :
  let s := mkState "work" true (Some 0) (Some 1500000) None 0 in
  (phase s <> "idle" /\ running s = true)
  /\ Popup.pauseHidden (Popup.buttons s) = false.
Proof.
  cbv zeta.
  assert (H : phase (mkState "work" true (Some 0) (Some 1500000) None 0)
              <> "idle"
              /\ running (mkState "work" true (Some 0) (Some 1500000) None 0)
                 = true) by (split; [discriminate | reflexivity]).
  split; [exact H |].
  exact (proj2 (proj1 (proj2 (proj2 (buttons_offered
           (mkState "work" true (Some 0) (Some 1500000) None 0))))) H).
Defined.

(** X22. When a phase has just completed (not idle, not running, no
    remaining time) the popup offers Resume and Reset and hides Start and
    Pause, but resume() does nothing on that state, and neither does
    pause(). *)
Theorem resume_offered_after_completion now w :
  phase (state w) <> "idle" ->
  running (state w) = false ->
  remainingTime (state w) = None ->
  Popup.buttons (state w) = Popup.mkButtons true true false false
  /\ resumeTimer now w = w
  /\ pauseTimer now w = w
  /\ Popup.timerText now (state w) = "00:00".
Proof.
  intros Hi Hr Hn. apply String.eqb_neq in Hi.
  unfold Popup.buttons, resumeTimer, pauseTimer, Popup.timerText, Popup.msLeft.
  rewrite Hi, Hr, Hn. repeat split.
Qed.

Lemma resume_offered_after_completion_witness :
  let w := completePhase 1500000
             (mkWorld (mkState "work" true (Some 0) (Some 1500000) None 0)
                      ∅ [] empty_storage) in
  (phase (state w) <> "idle" /\ running (state w) = false
   /\ remainingTime (state w) = None)
  /\ Popup.buttons (state w) = Popup.mkButtons true true false false
  /\ resumeTimer 1500100 w = w.
Proof.
  cbv zeta. split; [split; [discriminate | split; reflexivity] |].
  destruct (resume_offered_after_completion 1500100
    (completePhase 1500000
       (mkWorld (mkState "work" true (Some 0) (Some 1500000) None 0)
                ∅ [] empty_storage))) as (Hb & Hres & _);
    [discriminate | reflexivity | reflexivity |].
  split; [exact Hb | exact Hres].
Defined.

End DisplayFacts.
